(** * handtrack.js-node: the detection pipeline of [src/index.ts]

    A shallow embedding of the numeric helpers ([getValidResolution],
    [calculateMaxScores]), of [ObjectDetection.buildDetectedObjects] and of
    the stateful methods of [ObjectDetection] ([load], [detect], [getFPS],
    [dispose], ...), followed by the properties of the pipeline.

    JavaScript numbers.  The program is written once, over the interface
    [Number]; it is read at two instances:
    - [float], IEEE 754 binary64, the numbers the program runs on; every
      concrete run below is evaluated there;
    - [xnum], exact rationals extended with NaN and the two infinities,
      i.e. the same operations without rounding; laws of arithmetic that
      quantify over all numbers are stated there. *)

From Stdlib Require Import String ZArith QArith Qround Qminmax Floats Bool List.
From Stdlib Require Import Sorted Permutation Lia Lqa.
Import ListNotations.

Set Warnings "-inexact-float".
Set Implicit Arguments.
Close Scope Q_scope.

(* ================================================================== *)
(** ** JavaScript numbers *)
(* ================================================================== *)

Declare Scope js_scope.
Delimit Scope js_scope with js.

Class Number (N : Type) : Type := {
  ofZ : Z -> N;              (* an integer-valued number *)
  NaN : N;
  MIN_VALUE : N;             (* Number.MIN_VALUE *)
  nadd : N -> N -> N;
  nsub : N -> N -> N;
  nmul : N -> N -> N;
  ndiv : N -> N -> N;
  nrem : N -> N -> N;        (* the % operator *)
  ngt : N -> N -> bool;      (* a > b *)
  nlt : N -> N -> bool;      (* a < b *)
  nround : N -> N            (* Math.round *)
}.

Notation "x + y" := (nadd x y) : js_scope.
Notation "x - y" := (nsub x y) : js_scope.
Notation "x * y" := (nmul x y) : js_scope.
Notation "x / y" := (ndiv x y) : js_scope.
Notation "x 'mod' y" := (nrem x y) : js_scope.
Notation "x >? y" := (ngt x y) (at level 70, no associativity) : js_scope.
Notation "x <? y" := (nlt x y) (at level 70, no associativity) : js_scope.

(** *** binary64 *)

Module Float64.

Definition of_Z (z : Z) : float :=
  SF2Prim (binary_normalize prec emax z 0 false).

(** [n % d] (ECMAScript Number::remainder): the result has the sign of the
    dividend and is computed exactly. *)
Definition rem (n d : float) : float :=
  match Prim2SF n, Prim2SF d with
  | S754_nan, _ | _, S754_nan => nan
  | S754_infinity _, _ => nan
  | _, S754_zero _ => nan
  | _, S754_infinity _ => n
  | S754_zero _, _ => n
  | S754_finite sn mn en, S754_finite _ md ed =>
      let e := Z.min en ed in
      let a := (Zpos mn * 2 ^ (en - e))%Z in
      let b := (Zpos md * 2 ^ (ed - e))%Z in
      let r := (a mod b)%Z in
      if (r =? 0)%Z then (if sn then neg_zero else zero)
      else SF2Prim (binary_normalize prec emax (if sn then - r else r)%Z e false)
  end.

(** [Math.round]: the nearest integer, ties towards +Infinity. *)
Definition round (x : float) : float :=
  match Prim2SF x with
  | S754_finite s m e =>
      if (0 <=? e)%Z then x
      else
        let den := (2 ^ (- e))%Z in
        let num := (if s then Zneg m else Zpos m) in
        let k := ((2 * num + den) / (2 * den))%Z in
        if (k =? 0)%Z then (if s then neg_zero else zero) else of_Z k
  | _ => x
  end.

Definition MIN_VALUE : float := 0x1p-1074%float.

(** The integer a number is, when it is one. *)
Definition to_Z (x : float) : option Z :=
  match Prim2SF x with
  | S754_zero _ => Some 0%Z
  | S754_finite s m e =>
      let sign := if s then (-1)%Z else 1%Z in
      if (0 <=? e)%Z then Some (sign * (Zpos m * 2 ^ e))%Z
      else if (Zpos m mod 2 ^ (- e) =? 0)%Z then Some (sign * (Zpos m / 2 ^ (- e)))%Z
      else None
  | _ => None
  end.

End Float64.

#[export] Instance float_Number : Number float := {|
  ofZ := Float64.of_Z;
  NaN := nan;
  MIN_VALUE := Float64.MIN_VALUE;
  nadd := PrimFloat.add;
  nsub := PrimFloat.sub;
  nmul := PrimFloat.mul;
  ndiv := PrimFloat.div;
  nrem := Float64.rem;
  ngt := fun a b => PrimFloat.ltb b a;
  nlt := PrimFloat.ltb;
  nround := Float64.round
|}.

(** *** exact extended rationals *)

Inductive xnum : Type :=
| XNaN
| XInf (neg : bool)
| XFin (q : Q).

Module Exact.

Local Open Scope Q_scope.

(** Finite values are kept in lowest terms, so that equal numbers are
    equal terms. *)
Definition fin (q : Q) : xnum := XFin (Qred q).

Definition of_Z (z : Z) : xnum := XFin (inject_Z z).

Definition isneg (q : Q) : bool := (Qnum q <? 0)%Z.
Definition iszero (q : Q) : bool := (Qnum q =? 0)%Z.

Definition add (a b : xnum) : xnum :=
  match a, b with
  | XNaN, _ | _, XNaN => XNaN
  | XInf s, XInf t => if Bool.eqb s t then XInf s else XNaN
  | XInf s, XFin _ | XFin _, XInf s => XInf s
  | XFin p, XFin q => fin (p + q)
  end.

Definition sub (a b : xnum) : xnum :=
  match a, b with
  | XNaN, _ | _, XNaN => XNaN
  | XInf s, XInf t => if Bool.eqb s t then XNaN else XInf s
  | XInf s, XFin _ => XInf s
  | XFin _, XInf s => XInf (negb s)
  | XFin p, XFin q => fin (p - q)
  end.

Definition mul (a b : xnum) : xnum :=
  match a, b with
  | XNaN, _ | _, XNaN => XNaN
  | XInf s, XInf t => XInf (xorb s t)
  | XInf s, XFin q | XFin q, XInf s =>
      if iszero q then XNaN else XInf (xorb s (isneg q))
  | XFin p, XFin q => fin (p * q)
  end.

Definition div (a b : xnum) : xnum :=
  match a, b with
  | XNaN, _ | _, XNaN => XNaN
  | XInf _, XInf _ => XNaN
  | XInf s, XFin q => XInf (xorb s (isneg q))
  | XFin _, XInf _ => XFin 0
  | XFin p, XFin q =>
      if iszero q then (if iszero p then XNaN else XInf (isneg p))
      else fin (p / q)
  end.

(** Truncation towards zero. *)
Definition trunc (q : Q) : Z := Z.quot (Qnum q) (Zpos (Qden q)).

Definition rem (n d : xnum) : xnum :=
  match n, d with
  | XNaN, _ | _, XNaN => XNaN
  | XInf _, _ => XNaN
  | XFin _, XInf _ => n
  | XFin p, XFin q =>
      if iszero q then XNaN
      else fin (p - q * inject_Z (trunc (p / q)))
  end.

Definition ltb (a b : xnum) : bool :=
  match a, b with
  | XNaN, _ | _, XNaN => false
  | XInf s, XInf t => s && negb t
  | XInf s, XFin _ => s
  | XFin _, XInf t => negb t
  | XFin p, XFin q => if Qlt_le_dec p q then true else false
  end.

Definition round (a : xnum) : xnum :=
  match a with
  | XFin q => of_Z (Qfloor (q + (1 # 2)))
  | _ => a
  end.

(** 2^-1074 *)
Definition leastPositive : Q := 1 # (2 ^ 1074).

Definition MIN_VALUE : xnum := XFin leastPositive.

End Exact.

#[export] Instance xnum_Number : Number xnum := {|
  ofZ := Exact.of_Z;
  NaN := XNaN;
  MIN_VALUE := Exact.MIN_VALUE;
  nadd := Exact.add;
  nsub := Exact.sub;
  nmul := Exact.mul;
  ndiv := Exact.div;
  nrem := Exact.rem;
  ngt := fun a b => Exact.ltb b a;
  nlt := Exact.ltb;
  nround := Exact.round
|}.

(* ================================================================== *)
(** ** The numeric helpers of [index.ts] *)
(* ================================================================== *)

Section Helpers.

Context {N : Type} `{Number N}.

(** [function getValidResolution(imageScaleFactor, inputDimension, outputStride)] *)
Definition getValidResolution (imageScaleFactor inputDimension outputStride : N) : N :=
  let evenResolution := (inputDimension * imageScaleFactor - ofZ 1)%js in
  (evenResolution - (evenResolution mod outputStride) + ofZ 1)%js.

(** [a[k]] for a numeric buffer read as a number: an index outside the
    buffer reads [undefined], which every comparison and arithmetic
    operation treats as NaN. *)
Definition read (a : list N) (k : nat) : N := nth k a NaN.

(** The inner loop of [calculateMaxScores], [for (j = 0; j < numClasses; j++)],
    over the loop state [(max, index)]. *)
Definition scanClasses (scores : list N) (numClasses i : nat) : N * Z :=
  fold_left
    (fun '(max, index) j =>
       if (read scores (i * numClasses + j) >? max)%js
       then (read scores (i * numClasses + j), Z.of_nat j)
       else (max, index))
    (seq 0 numClasses)
    (MIN_VALUE, (-1)%Z).

(** [function calculateMaxScores(scores, numBoxes, numClasses)].  The outer
    loop writes [maxes[i]] and [classes[i]] at [i = maxes.length], which
    appends. *)
Definition calculateMaxScores (scores : list N) (numBoxes numClasses : nat)
  : list N * list Z :=
  fold_left
    (fun '(maxes, classes) i =>
       let '(max, index) := scanClasses scores numClasses i in
       (maxes ++ [max], classes ++ [index]))
    (seq 0 numBoxes)
    ([], []).

(** [getValidResolution(s, d, stride)] is an integer congruent to 1 modulo
    [stride], for every integer dimension [d] from 1 to [bound]. *)
Definition congruent_upto (to_Z : N -> option Z) (s : N) (stride : Z) (bound : nat)
  : bool :=
  forallb
    (fun d =>
       match to_Z (getValidResolution s (ofZ (Z.of_nat d)) (ofZ stride)) with
       | Some n => (n mod stride =? 1 mod stride)%Z
       | None => false
       end)
    (seq 1 bound).

(** The Coordinate Mapper as section 4.4 of the specification words it,
    [toPixelBox(normalizedBox: [minY, minX, maxY, maxX], width, height)],
    to be compared with what [buildDetectedObjects] computes. *)
Definition toPixelBox (normalizedBox : list N) (width height : N) : list N :=
  let minY := read normalizedBox 0 in
  let minX := read normalizedBox 1 in
  let maxY := read normalizedBox 2 in
  let maxX := read normalizedBox 3 in
  let x := (minX * width)%js in
  let y := (minY * height)%js in
  let w := (maxX * width - x)%js in
  let h := (maxY * height - y)%js in
  [x; y; w; h].

(** The four coordinates of box [idx] in the flat box buffer. *)
Definition boxAt (boxes : list N) (idx : nat) : list N :=
  [read boxes (idx * 4 + 0); read boxes (idx * 4 + 1);
   read boxes (idx * 4 + 2); read boxes (idx * 4 + 3)].

End Helpers.

(* ================================================================== *)
(** ** Data model *)
(* ================================================================== *)

(** A JavaScript error object, identified by its [name]. *)
Record JsError : Type := mkError { err_name : string; err_message : string }.

(** How a call ends: it returns, it throws (for an [async] method: the
    promise is rejected), or the process is terminated by [process.exit]. *)
Inductive Outcome (A : Type) : Type :=
| Return (a : A)
| Throw (e : JsError)
| Exit (code : Z).
Arguments Return {A} a.
Arguments Throw {A} e.
Arguments Exit {A} code.

(** A tensor held by the engine: [tid] identifies the allocation, [values]
    is what [dataSync] reads (numbers, int32 indexes, or pixel rows). *)
Record Tensor (V : Type) : Type := mkTensor {
  tid : nat;
  shape : list nat;
  values : V
}.

(** The handle of a loaded graph model. *)
Record GraphModel : Type := mkModel { handle : nat; disposed : bool }.

Section DataModel.

(** The numbers, and the content of one pixel, which is opaque to the
    pipeline. *)
Variables (N Pixel : Type).

Definition image : Type := list (list Pixel).

(** [Modelparams].  The type is declared in [types/global], which is not
    among the sources; the fields are those of [defaultParams]. *)
Record Modelparams : Type := mkParams {
  flipHorizontal : bool;
  outputStride : N;
  imageScaleFactor : N;
  maxNumBoxes : nat;
  iouThreshold : N;
  scoreThreshold : N;
  modelType : string
}.

(** The argument of [detect]: an element or pixel buffer with its own
    [height] and [width]; [pixels] is what [tf.browser.fromPixels] reads
    from it, row by row. *)
Record Frame : Type := mkFrame {
  height : N;
  width : N;
  pixels : image
}.

(** [predictions], declared in [types/global] too: the fields are those of
    the object [buildDetectedObjects] pushes.  [None] is [undefined]. *)
Record prediction : Type := mkPrediction {
  bbox : list N;
  class : option Z;
  score : option N
}.

(** The fields of an [ObjectDetection] instance; [fps] and [model] are
    declared without an initialiser ([fps!: number], [model!: GraphModel]). *)
Record ObjectDetection : Type := mkObject {
  modelPath : string;
  modelParams : Modelparams;
  fps : option N;
  model : option GraphModel
}.

Inductive LogEntry : Type :=
| Logged (height width : N)
| LoggedError (e : JsError).

(** The state the methods run in: the instance itself, the tensors the
    engine currently holds, the active backend, the number of clock
    readings taken so far and the console. *)
Record State : Type := mkState {
  this : ObjectDetection;
  live : list nat;
  nextId : nat;
  backend : string;
  ticks : nat;
  console : list LogEntry
}.

(** What the pipeline calls but does not define: the inference library
    and the clock. *)
Record Host : Type := mkHost {
  (** [tfnode.loadGraphModel(url)] *)
  loadGraphModel : string -> JsError + GraphModel;
  (** [model.executeAsync(batch)]: the output tensors' shapes and data,
      from the pixel content of the batch. *)
  execute : GraphModel -> image -> JsError + list (list nat * list N);
  (** [t.resizeBilinear([h, w])] on the pixel content. *)
  resizeBilinear : image -> N -> N -> image;
  (** [tfnode.image.nonMaxSuppression] on [tensor2d(boxes, [n, k])]. *)
  nonMaxSuppression :
    list N -> nat -> nat -> list N -> nat -> N -> N -> JsError + list nat;
  (** [tfnode.zeros([1, 300, 300, 3])] as pixel content. *)
  zeros : image;
  (** [path.join(__dirname, "..", basePath, "model.json")] *)
  modelFile : string;
  (** [Date.now()] at the k-th reading, in milliseconds. *)
  clock : nat -> Z
}.

End DataModel.

Arguments LoggedError {N} e.

(* ================================================================== *)
(** ** Effects *)
(* ================================================================== *)

Section Effects.

Context {N : Type}.

Definition M (A : Type) : Type := State N -> Outcome A * State N.

Definition ret {A} (a : A) : M A := fun st => (Return a, st).

Definition bind {A B} (c : M A) (k : A -> M B) : M B :=
  fun st =>
    match c st with
    | (Return a, st') => k a st'
    | (Throw e, st') => (Throw e, st')
    | (Exit code, st') => (Exit code, st')
    end.

Definition throw {A} (e : JsError) : M A := fun st => (Throw e, st).

Definition get : M (State N) := fun st => (Return st, st).
Definition modify (f : State N -> State N) : M unit := fun st => (Return tt, f st).

Definition set_this (o : ObjectDetection N) (st : State N) : State N :=
  mkState o (live st) (nextId st) (backend st) (ticks st) (console st).
Definition set_live (l : list nat) (st : State N) : State N :=
  mkState (this st) l (nextId st) (backend st) (ticks st) (console st).
Definition set_nextId (n : nat) (st : State N) : State N :=
  mkState (this st) (live st) n (backend st) (ticks st) (console st).
Definition set_backend (b : string) (st : State N) : State N :=
  mkState (this st) (live st) (nextId st) b (ticks st) (console st).
Definition set_ticks (n : nat) (st : State N) : State N :=
  mkState (this st) (live st) (nextId st) (backend st) n (console st).
Definition set_console (c : list (LogEntry N)) (st : State N) : State N :=
  mkState (this st) (live st) (nextId st) (backend st) (ticks st) c.

End Effects.

Notation "x <- c ;; k" := (bind c (fun x => k))
  (at level 61, c at next level, right associativity) : js_scope.
Notation "c ;; k" := (bind c (fun _ => k))
  (at level 61, right associativity) : js_scope.

(* ================================================================== *)
(** ** [ObjectDetection] *)
(* ================================================================== *)

Section Pipeline.

Context {N : Type} `{Number N} {Pixel : Type}.
Variable host : Host N Pixel.

Local Open Scope string_scope.
Local Open Scope list_scope.
Local Open Scope js_scope.

Local Abbreviation M := (@M N).

(** *** The engine's bookkeeping *)

(** A new tensor is registered with the engine. *)
Definition alloc {V} (sh : list nat) (v : V) : M (Tensor V) :=
  fun st =>
    (Return (mkTensor (nextId st) sh v),
     set_live (live st ++ [nextId st]) (set_nextId (S (nextId st)) st)).

(** [t.dispose()] *)
Definition release (id : nat) : M unit :=
  modify (fun st => set_live (remove Nat.eq_dec id (live st)) st).

(** [tfnode.dispose(tensors)] *)
Fixpoint disposeAll {V} (ts : list (Tensor V)) : M unit :=
  match ts with
  | [] => ret tt
  | t :: rest => release (tid t) ;; disposeAll rest
  end.

(** [tfnode.tidy(f)]: when [f] ends, also by throwing, every tensor it
    allocated is released, except the tensor it returns. *)
Definition tidy {V} (body : M (Tensor V)) : M (Tensor V) :=
  fun st =>
    let '(r, st') := body st in
    let kept := match r with Return t => [tid t] | _ => [] end in
    (r, set_live
          (filter (fun id => existsb (Nat.eqb id) (live st ++ kept)) (live st'))
          st').

Definition image_shape (img : image Pixel) : list nat :=
  [List.length img; List.length (hd [] img); 3%nat].

(** [tfnode.browser.fromPixels(input)] *)
Definition fromPixels (input : Frame N Pixel) : M (Tensor (image Pixel)) :=
  alloc (image_shape (pixels input)) (pixels input).

(** [t.reverse(1)]: every row is reversed. *)
Definition reverse1 (t : Tensor (image Pixel)) : M (Tensor (image Pixel)) :=
  alloc (shape t) (map (@rev Pixel) (values t)).

(** [t.resizeBilinear([h, w])] *)
Definition resize (t : Tensor (image Pixel)) (h w : N) : M (Tensor (image Pixel)) :=
  let img := resizeBilinear host (values t) h w in
  alloc (image_shape img) img.

(** [t.expandDims(0)]: a batch of one image. *)
Definition expandDims0 (t : Tensor (image Pixel)) : M (Tensor (image Pixel)) :=
  alloc (1%nat :: shape t) (values t).

Fixpoint allocAll (outs : list (list nat * list N)) : M (list (Tensor (list N))) :=
  match outs with
  | [] => ret []
  | (sh, d) :: rest =>
      t <- alloc sh d ;;
      ts <- allocAll rest ;;
      ret (t :: ts)
  end.

(** [model.executeAsync(batched)]: the promise is rejected when the engine
    fails, otherwise it resolves to the freshly allocated outputs. *)
Definition executeAsync (m : GraphModel) (batched : Tensor (image Pixel))
  : M (list (Tensor (list N))) :=
  match execute host m (values batched) with
  | inl e => throw e
  | inr outs => allocAll outs
  end.

(** Reading a property of [undefined]. *)
Definition typeError (property : string) : JsError :=
  mkError "TypeError"
          ("Cannot read properties of undefined (reading '" ++ property ++ "')")%string.

(** [a[k].property] *)
Definition item {A} (a : list A) (k : nat) (property : string) : M A :=
  match nth_error a k with
  | Some x => ret x
  | None => throw (typeError property)
  end.

(** [Date.now()] *)
Definition now : M Z :=
  fun st => (Return (clock host (ticks st)), set_ticks (S (ticks st)) st).

Definition log (e : LogEntry N) : M unit :=
  modify (fun st => set_console (console st ++ [e]) st).

Definition getBackend : M string := st <- get ;; ret (backend st).
Definition setBackend (b : string) : M unit := modify (set_backend b).

Definition getThis : M (ObjectDetection N) := st <- get ;; ret (this st).

Definition set_fps (v : N) : M unit :=
  modify (fun st =>
    let o := this st in
    set_this (mkObject (modelPath o) (modelParams o) (Some v) (model o)) st).

Definition set_model (m : GraphModel) : M unit :=
  modify (fun st =>
    let o := this st in
    set_this (mkObject (modelPath o) (modelParams o) (fps o) (Some m)) st).

(** [try { c } catch (error) { h(error) }] *)
Definition catch {A} (c : M A) (h : JsError -> M A) : M A :=
  fun st =>
    match c st with
    | (Throw e, st') => h e st'
    | r => r
    end.

(** [process.exit(code)] *)
Definition exit {A} (code : Z) : M A := fun st => (Exit code, st).

(** *** The methods *)

(** [constructor(modelParams)] *)
Definition new_ObjectDetection (modelParams : Modelparams N) : ObjectDetection N :=
  mkObject (modelFile host) modelParams None None.

(** [async load()] *)
Definition load : M unit :=
  catch
    (set_fps (ofZ 0) ;;
     self <- getThis ;;
     m <- match loadGraphModel host ("file://" ++ modelPath self)%string with
          | inl e => throw e
          | inr m => ret m
          end ;;
     set_model m ;;
     (* Warmup the model. *)
     z <- alloc [1; 300; 300; 3]%nat (zeros host) ;;
     result <- executeAsync m z ;;
     disposeAll result ;;
     ret tt)
    (fun error => log (LoggedError error) ;; exit 1).

(** [getInputTensorDimensions(input)], for the inputs [detect] declares:
    none of them is a [Tensor], so the dimensions are the input's own
    [height] and [width]. *)
Definition getInputTensorDimensions (input : Frame N Pixel) : N * N :=
  (height input, width input).

(** [a[k] = v] for [k <= a.length]; at [k = a.length] the array grows by
    one element. *)
Definition assign {A} (a : list A) (k : nat) (v : A) : list A :=
  firstn k a ++ v :: skipn (S k) a.

(** [buildDetectedObjects(width, height, boxes, scores, indexes, classes)] *)
Definition buildDetectedObjects (width height : N) (boxes scores : list N)
    (indexes : list nat) (classes : list Z) : list (prediction N) :=
  let count := List.length indexes in
  fold_left
    (fun objects i =>
       let idx := nth i indexes 0%nat in
       let bbox :=
         fold_left (fun bbox j => assign bbox j (read boxes (idx * 4 + j)))
                   (seq 0 4) [] in
       let minY := read bbox 0 * height in
       let minX := read bbox 1 * width in
       let maxY := read bbox 2 * height in
       let maxX := read bbox 3 * width in
       let bbox := assign bbox 0 minX in
       let bbox := assign bbox 1 minY in
       let bbox := assign bbox 2 (maxX - minX) in
       let bbox := assign bbox 3 (maxY - minY) in
       objects ++ [mkPrediction bbox (nth_error classes idx) (nth_error scores idx)])
    (seq 0 count)
    [].

(** The function [detect] passes to [then]: it runs on the [result] the
    promise of [executeAsync] resolves to, and closes over [timeBegin],
    [height], [width], [batched] and [_self]. *)
Definition detect_then (timeBegin : Z) (height width : N)
    (batched : Tensor (image Pixel)) (result : list (Tensor (list N)))
  : M (list (prediction N)) :=
  r0 <- item result 0 "dataSync" ;;
  let scores := values r0 in
  r1 <- item result 1 "dataSync" ;;
  let boxes := values r1 in
  (* clean the webgl tensors *)
  release (tid batched) ;;
  disposeAll result ;;
  let '(maxScores, classes) :=
    calculateMaxScores scores (nth 1 (shape r0) 0%nat) (nth 2 (shape r0) 0%nat) in
  prevBackend <- getBackend ;;
  (* run post process in cpu *)
  setBackend "cpu" ;;
  _self <- getThis ;;
  indexTensor <- tidy
    (boxes2 <- alloc [nth 1 (shape r1) 0%nat; nth 3 (shape r1) 0%nat] boxes ;;
     match nonMaxSuppression host
             (values boxes2) (nth 1 (shape r1) 0%nat) (nth 3 (shape r1) 0%nat)
             scores
             (maxNumBoxes (modelParams _self))
             (iouThreshold (modelParams _self))
             (scoreThreshold (modelParams _self)) with
     | inl e => throw e
     | inr selected => alloc [List.length selected] selected
     end) ;;
  let indexes := values indexTensor in
  release (tid indexTensor) ;;
  (* restore previous backend *)
  setBackend prevBackend ;;
  let predictions :=
    buildDetectedObjects width height boxes scores indexes classes in
  timeEnd <- now ;;
  set_fps (nround (ofZ 1000 / (ofZ timeEnd - ofZ timeBegin))) ;;
  ret predictions.

(** [async detect(input)].  When the promise of [executeAsync] is rejected
    the function passed to [then] does not run, and the promise [detect]
    returns is rejected with the same error. *)
Definition detect (input : Frame N Pixel) : M (list (prediction N)) :=
  timeBegin <- now ;;
  let '(height, width) := getInputTensorDimensions input in
  log (Logged height width) ;;
  self <- getThis ;;
  let resizedHeight :=
    getValidResolution (imageScaleFactor (modelParams self)) height
                       (outputStride (modelParams self)) in
  let resizedWidth :=
    getValidResolution (imageScaleFactor (modelParams self)) width
                       (outputStride (modelParams self)) in
  batched <- tidy
    (imageTensor <- fromPixels input ;;
     if flipHorizontal (modelParams self) then
       (r <- reverse1 imageTensor ;;
        z <- resize r resizedHeight resizedWidth ;;
        expandDims0 z)
     else
       (z <- resize imageTensor resizedHeight resizedWidth ;;
        expandDims0 z)) ;;
  match model self with
  | None => throw (typeError "executeAsync")
  | Some m =>
      result <- executeAsync m batched ;;
      detect_then timeBegin height width batched result
  end.

(** [getFPS()]; [None] is [undefined]. *)
Definition getFPS : M (option N) := self <- getThis ;; ret (fps self).

(** [getModelParameters()] *)
Definition getModelParameters : M (Modelparams N) :=
  self <- getThis ;; ret (modelParams self).


End Pipeline.

(* ================================================================== *)
(** ** Vocabulary for the properties of [detect] *)
(* ================================================================== *)

Section Vocabulary.

Context {N : Type} `{Number N} {Pixel : Type}.
Variable host : Host N Pixel.

(** The engine hands out increasing ids: those it holds are below the next
    one. *)
Definition wf (st : State N) : Prop :=
  Forall (fun id => id < nextId st) (live st).

(** The pixel content of the batch [detect] gives to [executeAsync]. *)
Definition batch (input : Frame N Pixel) (p : Modelparams N) : image Pixel :=
  resizeBilinear host
    (if flipHorizontal p then map (@rev Pixel) (pixels input) else pixels input)
    (getValidResolution (imageScaleFactor p) (height input) (outputStride p))
    (getValidResolution (imageScaleFactor p) (width input) (outputStride p)).

(** The id of that batch: the fourth tensor [detect] allocates when it
    flips the frame, the third when it does not. *)
Definition batched_id (st : State N) : nat :=
  (if flipHorizontal (modelParams (this st)) then 3 else 2) + nextId st.

(** The state when [executeAsync] is called, [l] being the tensors held. *)
Definition preprocessed (input : Frame N Pixel) (st : State N) (l : list nat) : State N :=
  mkState (this st) l (S (batched_id st)) (backend st) (S (ticks st))
          (console st ++ [Logged (height input) (width input)]).

(** The outputs of the engine as tensors with the ids [n], [n + 1], ... *)
Fixpoint tensors (n : nat) (outs : list (list nat * list N)) : list (Tensor (list N)) :=
  match outs with
  | [] => []
  | (sh, d) :: rest => mkTensor n sh d :: tensors (S n) rest
  end.

(** The tensors held, once [batched] and [result] are disposed. *)
Definition released (batched : Tensor (image Pixel)) (result : list (Tensor (list N)))
    (l : list nat) : list nat :=
  fold_left (fun l id => remove Nat.eq_dec id l) (map (@tid _) result)
            (remove Nat.eq_dec (tid batched) l).

(** [this.fps = v] *)
Definition with_fps (o : ObjectDetection N) (v : N) : ObjectDetection N :=
  mkObject (modelPath o) (modelParams o) (Some v) (model o).

(** The suppression and mapping steps on the engine's outputs. *)
Definition postprocess (p : Modelparams N) (width height : N)
    (outs : list (list nat * list N)) : Outcome (list (prediction N)) :=
  match nth_error outs 0, nth_error outs 1 with
  | Some (sh0, scores), Some (sh1, boxes) =>
      match nonMaxSuppression host boxes (nth 1 sh1 0) (nth 3 sh1 0) scores
              (maxNumBoxes p) (iouThreshold p) (scoreThreshold p) with
      | inl e => Throw e
      | inr selected =>
          Return (buildDetectedObjects width height boxes scores selected
                    (snd (calculateMaxScores scores (nth 1 sh0 0) (nth 2 sh0 0))))
      end
  | _, _ => Throw (typeError "dataSync")
  end.

(** How [detect] ends, as a function of the instance and the frame. *)
Definition outcome (o : ObjectDetection N) (input : Frame N Pixel)
  : Outcome (list (prediction N)) :=
  match model o with
  | None => Throw (typeError "executeAsync")
  | Some m =>
      match execute host m (batch input (modelParams o)) with
      | inl e => Throw e
      | inr outs => postprocess (modelParams o) (width input) (height input) outs
      end
  end.

(** The value [detect] stores in [fps] when it returns. *)
Definition measured (st : State N) : N :=
  nround (ofZ 1000 / (ofZ (clock host (S (ticks st))) - ofZ (clock host (ticks st))))%js.

(** The tensors [detect] leaves behind. *)
Definition leftover (st : State N) (input : Frame N Pixel) : list nat :=
  match model (this st) with
  | None => [batched_id st]
  | Some m =>
      match execute host m (batch input (modelParams (this st))) with
      | inl _ => [batched_id st]
      | inr outs =>
          match nth_error outs 0, nth_error outs 1 with
          | Some _, Some _ => []
          | _, _ => batched_id st :: seq (S (batched_id st)) (length outs)
          end
      end
  end.

End Vocabulary.

(* ================================================================== *)
(** ** Mirroring *)
(* ================================================================== *)

Section Mirroring.

Context {N : Type} `{Number N} {Pixel : Type}.

(** The frame seen in a mirror: every row of pixels reversed. *)
Definition mirrored (input : Frame N Pixel) : Frame N Pixel :=
  mkFrame (height input) (width input) (map (@rev Pixel) (pixels input)).



(** [setModelParameters({ flipHorizontal: b })] *)
Definition set_flipHorizontal (b : bool) (st : State N) : State N :=
  let o := this st in
  let p := modelParams o in
  set_this
    (mkObject (modelPath o)
       (mkParams b (outputStride p) (imageScaleFactor p) (maxNumBoxes p)
                 (iouThreshold p) (scoreThreshold p) (modelType p))
       (fps o) (model o))
    st.

End Mirroring.

(* ================================================================== *)
(** ** The Suppressor *)
(* ================================================================== *)

(** [tfnode.image.nonMaxSuppression] is an operation of the inference
    library: [index.ts] calls it and does not define it.  This module models
    it from section 4.3 and the glossary of the specification, on exact
    rationals. *)
Module Suppressor.

Local Open Scope Q_scope.

(** Modelled from the spec: a box is [minY, minX, maxY, maxX]. *)
Record Box : Type := mkBox { minY : Q; minX : Q; maxY : Q; maxX : Q }.

Definition area (b : Box) : Q := (maxY b - minY b) * (maxX b - minX b).

Definition intersection (a b : Box) : Q :=
  Qmax 0 (Qmin (maxY a) (maxY b) - Qmax (minY a) (minY b))
  * Qmax 0 (Qmin (maxX a) (maxX b) - Qmax (minX a) (minX b)).

(** Modelled from the spec: the operation itself is missing from the
    sources; the glossary has intersection-over-union as the ratio of two
    boxes' overlapping area to their union area. *)
Definition iou (a b : Box) : Q :=
  intersection a b / (area a + area b - intersection a b).

(** [x < y] *)
Definition below (x y : Q) : bool := if Qlt_le_dec x y then true else false.

Section Suppress.

Variables (boxes : list Box) (scores : list Q).
Variables (maxOutputSize : nat) (iouThreshold scoreThreshold : Q).

Definition box (i : nat) : Box := nth i boxes (mkBox 0 0 0 0).
Definition score (i : nat) : Q := nth i scores 0.

(** Descending score order; among equal scores the lower index first. *)
Fixpoint insert (c : nat) (l : list nat) : list nat :=
  match l with
  | [] => [c]
  | x :: rest => if below (score c) (score x) then x :: insert c rest else c :: l
  end.

Definition byScore (l : list nat) : list nat := fold_right insert [] l.

(** Modelled from the spec: the operation itself is missing from the
    sources; boxes whose score is not below [scoreThreshold] are considered,
    in descending score order. *)
Definition candidates : list nat :=
  byScore (filter (fun i => negb (below (score i) scoreThreshold))
                  (seq 0 (List.length scores))).

(** The intersection-over-union of boxes [c] and [s] exceeds the threshold. *)
Definition overlaps (c s : nat) : bool := below iouThreshold (iou (box c) (box s)).

(** Modelled from the spec: the operation itself is missing from the
    sources; a box is accepted if it survives the overlap test against all
    previously accepted boxes, and at most [maxOutputSize] boxes are. *)
Definition accept (selected : list nat) (c : nat) : list nat :=
  if (List.length selected <? maxOutputSize)%nat
     && forallb (fun s => negb (overlaps c s)) selected
  then selected ++ [c]
  else selected.

(** Modelled from the spec: [tfnode.image.nonMaxSuppression] is missing
    from the sources; [suppress(boxes, scores, maxOutputSize, iouThreshold,
    scoreThreshold)] of section 4.3 is the greedy pass over the candidates. *)
Definition suppress : list nat := fold_left accept candidates [].

(** [i] does not come after [j] in descending score order. *)
Definition descending (i j : nat) : Prop := (score j <= score i)%Q.

(** Every accepted box passed the test against the boxes accepted before. *)
Definition compatible (selected : list nat) : Prop :=
  ForallOrdPairs (fun earlier later => overlaps later earlier = false) selected.

End Suppress.

End Suppressor.

(* ================================================================== *)
(** ** Stand-ins for the inference library, for concrete runs *)
(* ================================================================== *)

Module Mock.

Local Open Scope string_scope.
Local Open Scope list_scope.

(** The column of the first lit pixel of a row. *)
Fixpoint locate (row : list bool) : nat :=
  match row with
  | true :: _ => 0
  | false :: rest => S (locate rest)
  | [] => 0
  end.

(** A model that reports one box with score 1: the lit pixel of the first
    row of the image it is given, over the full height. *)
Definition spotExecute (m : GraphModel) (img : image bool)
  : JsError + list (list nat * list float) :=
  let row := hd [] img in
  let c := Z.of_nat (locate row) in
  let w := Z.of_nat (List.length row) in
  inr [ ([1; 1; 1]%nat, [1%float]);
        ([1; 1; 1; 4]%nat,
         [0%float; (ofZ c / ofZ w)%js; 1%float; (ofZ (c + 1) / ofZ w)%js]) ].

(** A model that reports the box [0.1, 0.2, 0.6, 0.8] with score 1. *)
Definition fixedExecute (m : GraphModel) (img : image bool)
  : JsError + list (list nat * list float) :=
  inr [ ([1; 1; 1]%nat, [1%float]);
        ([1; 1; 1; 4]%nat, [0.1%float; 0.2%float; 0.6%float; 0.8%float]) ].

(** An engine whose inference call fails. *)
Definition inferenceError : JsError := mkError "Error" "inference failed".

Definition failingExecute (m : GraphModel) (img : image bool)
  : JsError + list (list nat * list float) :=
  inl inferenceError.

(** A suppression stand-in without an overlap test: the first [maxOutputSize]
    boxes whose score is not below the threshold. *)
Definition keepAbove (boxes : list float) (n k : nat) (scores : list float)
    (maxOutputSize : nat) (iouThreshold scoreThreshold : float)
  : JsError + list nat :=
  inr (firstn maxOutputSize
         (filter (fun i => negb (read scores i <? scoreThreshold)%js) (seq 0 n))).

(** A clock that advances 50 ms between two readings, and one that stands
    still. *)
Definition ticking (k : nat) : Z := (1000 + 50 * Z.of_nat k)%Z.
Definition standing (k : nat) : Z := 1000%Z.

Definition host (execute : GraphModel -> image bool -> JsError + list (list nat * list float))
    (clock : nat -> Z) : Host float bool :=
  mkHost (fun _ => inr (mkModel 1 false)) execute (fun img _ _ => img) keepAbove
         [] "/app/jsonmodels/model.json" clock.

(** [defaultParams], with [flipHorizontal] as given. *)
Definition params (flip : bool) : Modelparams float :=
  mkParams flip 16%float 0.7%float 20 0.5%float 0.99%float "MobilenetV2".

(** A freshly constructed instance, and the same once [load] has run. *)
Definition fresh (flip : bool) : State float :=
  mkState (new_ObjectDetection (host spotExecute ticking) (params flip))
          [] 0 "tensorflow" 0 [].

Definition loaded (flip : bool) : State float :=
  mkState (mkObject "/app/jsonmodels/model.json" (params flip) (Some 0%float)
                    (Some (mkModel 1 false)))
          [0%nat] 3 "tensorflow" 0 [].

(** A frame of one row and four columns with a hand in the leftmost column,
    and a frame of width 100 and height 200. *)
Definition handLeft : Frame float bool :=
  mkFrame 1%float 4%float [[true; false; false; false]].

Definition frame100x200 : Frame float bool :=
  mkFrame 200%float 100%float [].

End Mock.

(* ================================================================== *)
(** ** Parameters, the module's own functions and the video helpers *)
(* ================================================================== *)

Section Parameters.

Variable N : Type.

(** The argument of [setModelParameters] and of the module's [load]: an
    object holding some of the keys of [Modelparams]; [None] is an absent
    key. *)
Record PartialParams : Type := mkPartial {
  given_flipHorizontal : option bool;
  given_outputStride : option N;
  given_imageScaleFactor : option N;
  given_maxNumBoxes : option nat;
  given_iouThreshold : option N;
  given_scoreThreshold : option N;
  given_modelType : option string
}.

(** No key at all: [{}], or an omitted argument. *)
Definition noParams : PartialParams :=
  mkPartial None None None None None None None.

(** One key of [Object.assign]: the source's value when it has the key. *)
Definition assignKey {A : Type} (target : A) (source : option A) : A :=
  match source with
  | Some v => v
  | None => target
  end.

(** [Object.assign({}, target, source)] *)
Definition Object_assign (target : Modelparams N) (source : PartialParams)
  : Modelparams N :=
  mkParams
    (assignKey (flipHorizontal target) (given_flipHorizontal source))
    (assignKey (outputStride target) (given_outputStride source))
    (assignKey (imageScaleFactor target) (given_imageScaleFactor source))
    (assignKey (maxNumBoxes target) (given_maxNumBoxes source))
    (assignKey (iouThreshold target) (given_iouThreshold source))
    (assignKey (scoreThreshold target) (given_scoreThreshold source))
    (assignKey (modelType target) (given_modelType source)).

(** A whole [Modelparams] object passed where some keys would do. *)
Definition allParams (p : Modelparams N) : PartialParams :=
  mkPartial (Some (flipHorizontal p)) (Some (outputStride p))
            (Some (imageScaleFactor p)) (Some (maxNumBoxes p))
            (Some (iouThreshold p)) (Some (scoreThreshold p)) (Some (modelType p)).

(** [Object.assign({}, first, second)] on two partial objects: a key of
    [second] wins. *)
Definition mergeParams (first second : PartialParams) : PartialParams :=
  let key {A : Type} (a b : option A) : option A :=
    match b with Some v => Some v | None => a end in
  mkPartial
    (key (given_flipHorizontal first) (given_flipHorizontal second))
    (key (given_outputStride first) (given_outputStride second))
    (key (given_imageScaleFactor first) (given_imageScaleFactor second))
    (key (given_maxNumBoxes first) (given_maxNumBoxes second))
    (key (given_iouThreshold first) (given_iouThreshold second))
    (key (given_scoreThreshold first) (given_scoreThreshold second))
    (key (given_modelType first) (given_modelType second)).

(** [setModelParameters(params)] *)
Definition setModelParameters (params : PartialParams) : M unit :=
  modify (fun st =>
    let o := this st in
    set_this (mkObject (modelPath o) (Object_assign (modelParams o) params)
                       (fps o) (model o)) st).

End Parameters.

(** The functions [index.ts] exports beside the class. *)
Module Index.

Local Open Scope js_scope.

(** [const defaultParams] *)
Definition defaultParams : Modelparams float :=
  mkParams true 16%float 0.7%float 20 0.5%float 0.99%float "MobilenetV2".

(** [export async function load(params?)]: the new instance becomes the one
    the methods run on, and is returned once its [load] has completed. *)
Definition load {Pixel : Type} (host : Host float Pixel) (params : PartialParams float)
  : M (ObjectDetection float) :=
  let modelParams := Object_assign defaultParams params in
  let objectDetection := new_ObjectDetection host modelParams in
  modify (set_this objectDetection) ;;
  load host ;;
  getThis.

End Index.

(** [startVideo] and [stopVideo] run against the browser: the media streams
    it has handed out, [window.localStream], and a video element.  A stream
    is an object shared by [window.localStream] and [video.srcObject], so the
    streams live in a store and both hold an index into it. *)
(** [startVideo] and [stopVideo] are written for a browser: [navigator] and
    [window] are the browser's globals, [video] is an object with a numeric
    [width] and [height].  The browser keeps the streams it has handed out;
    [window.localStream] and [video.srcObject] refer to one of them. *)

(** A promise: not settled, or resolved to a value. *)
Inductive Promise (A : Type) : Type :=
| Pending
| Resolved (value : A).
Arguments Pending {A}.
Arguments Resolved {A} value.

Section Video.

Context {N : Type} `{Number N}.

Local Open Scope js_scope.

(** A track of a stream; [track.stop()] ends it. *)
Record Track : Type := mkTrack { kind : string; ended : bool }.

Record Browser : Type := mkBrowser {
  streams : list (list Track);
  localStream : option nat
}.

Record Video : Type := mkVideo {
  video_width : N;
  video_height : N;
  srcObject : option nat;
  playing : bool
}.

(** A number used as a condition: 0, -0 and NaN are falsy. *)
Definition truthy (x : N) : bool := (x <? ofZ 0) || (x >? ofZ 0).

(** [a || b] on numbers *)
Definition orElse (a b : N) : N := if truthy a then a else b.

(** [stream.getTracks().forEach(track => { track.stop(); return true; })] *)
Definition stopTracks (tracks : list Track) : list Track :=
  map (fun track => mkTrack (kind track) true) tracks.

(** [a[k] = v] inside the store; an index outside it is left alone. *)
Fixpoint update {A : Type} (a : list A) (k : nat) (f : A -> A) : list A :=
  match a, k with
  | [], _ => []
  | x :: rest, O => f x :: rest
  | x :: rest, S k' => x :: update rest k' f
  end.

(** [export function startVideo(video)].  [media] is how
    [navigator.mediaDevices.getUserMedia] settles, with the tracks of the
    stream it hands out, and [metadata] whether the video's
    [loadedmetadata] event fires.  The result is the state of the promise
    [startVideo] returns. *)
Definition startVideo (media : JsError + list Track) (metadata : bool)
    (video : Video) (browser : Browser) : Promise bool * Video * Browser :=
  (* Video must have height and width in order to be used as input for NN *)
  let width := orElse (video_width video) (ofZ 640) in
  let height := orElse (video_height video) (width * (ofZ 3 / ofZ 4)) in
  match media with
  | inr tracks =>
      let stream := List.length (streams browser) in
      let browser' := mkBrowser (streams browser ++ [tracks]) (Some stream) in
      if metadata
      then (Resolved true, mkVideo width height (Some stream) true, browser')
      else (Pending, mkVideo width height (Some stream) (playing video), browser')
  | inl err =>
      (Resolved false, mkVideo width height (srcObject video) (playing video), browser)
  end.

(** [export async function stopVideo()]; the result is the value the
    promise resolves to: [Some false], or [None] for [undefined]. *)
Definition stopVideo (browser : Browser) : option bool * Browser :=
  match localStream browser with
  | Some stream =>
      (None, mkBrowser (update (streams browser) stream stopTracks)
                       (localStream browser))
  | None => (Some false, browser)
  end.

End Video.

(** More stand-ins for the inference library. *)
Module Stub.

Local Open Scope string_scope.
Local Open Scope list_scope.

Definition suppressionError : JsError := mkError "Error" "suppression failed".
Definition loadError : JsError := mkError "Error" "model.json not found".

(** A suppression step that throws. *)
Definition failingSuppress (boxes : list float) (n k : nat) (scores : list float)
    (maxOutputSize : nat) (iouThreshold scoreThreshold : float)
  : JsError + list nat :=
  inl suppressionError.

(** A model with a single output tensor. *)
Definition oneOutput (m : GraphModel) (img : image bool)
  : JsError + list (list nat * list float) :=
  inr [ ([1; 1; 1]%nat, [1%float]) ].

(** A model file that cannot be read. *)
Definition missingModel (url : string) : JsError + GraphModel := inl loadError.

Definition foundModel (url : string) : JsError + GraphModel := inr (mkModel 1 false).

Definition host (loadGraphModel : string -> JsError + GraphModel)
    (execute : GraphModel -> image bool -> JsError + list (list nat * list float))
    (nonMaxSuppression :
       list float -> nat -> nat -> list float -> nat -> float -> float
       -> JsError + list nat)
  : Host float bool :=
  mkHost loadGraphModel execute (fun img _ _ => img) nonMaxSuppression
         [] "/app/jsonmodels/model.json" Mock.ticking.

(** A browser that has handed out one stream, which a video shows. *)
Definition camera : list Track := [mkTrack "video" false].

End Stub.

(* ================================================================== *)
(** ** Facts about the engine's bookkeeping *)
(* ================================================================== *)

Arguments getValidResolution : simpl never.
Arguments calculateMaxScores : simpl never.
Arguments buildDetectedObjects : simpl never.

Section EngineFacts.

Lemma existsb_eqb_In (id : nat) (l : list nat) :
  existsb (Nat.eqb id) l = true <-> In id l.
Proof.
  rewrite existsb_exists. split.
  - intros [x [Hx He]]. apply Nat.eqb_eq in He. now subst.
  - intros Hin. exists id. split; [assumption | apply Nat.eqb_refl].
Qed.

(** What [tidy] keeps: the tensors that were live before, and of the new
    ones those that are returned. *)
Lemma filter_live (n : nat) (L K R : list nat) :
  Forall (fun id => id < n) L ->
  Forall (fun id => n <= id) R ->
  filter (fun id => existsb (Nat.eqb id) (L ++ K)) (L ++ R)
  = L ++ filter (fun id => existsb (Nat.eqb id) K) R.
Proof.
  intros HL HR. rewrite filter_app. f_equal.
  - apply forallb_filter_id. apply forallb_forall. intros x Hx.
    apply existsb_eqb_In. apply in_or_app. now left.
  - apply filter_ext_in. intros x Hx.
    rewrite existsb_app.
    replace (existsb (Nat.eqb x) L) with false; [reflexivity|].
    symmetry. apply Bool.not_true_is_false. rewrite existsb_eqb_In. intros Hin.
    rewrite Forall_forall in HL, HR. specialize (HL _ Hin). specialize (HR _ Hx). lia.
Qed.

Lemma remove_live (n id : nat) (L R : list nat) :
  Forall (fun x => x < n) L -> n <= id ->
  remove Nat.eq_dec id (L ++ R) = L ++ remove Nat.eq_dec id R.
Proof.
  intros HL Hid. rewrite remove_app. f_equal.
  apply notin_remove. intros Hin. rewrite Forall_forall in HL.
  specialize (HL _ Hin). lia.
Qed.

Lemma remove_seq (a k : nat) (L : list nat) :
  Forall (fun x => x < a) L ->
  fold_left (fun l id => remove Nat.eq_dec id l) (seq a k) (L ++ seq a k) = L.
Proof.
  revert a L. induction k as [|k IH]; intros a L HL; cbn [seq fold_left].
  - apply app_nil_r.
  - rewrite (remove_live (n := a)) by (assumption || lia).
    cbn [remove]. destruct (Nat.eq_dec a a) as [_|Hne]; [|congruence].
    rewrite notin_remove by (rewrite in_seq; lia).
    (* L ++ seq (S a) k, with L below a <= S a *)
    apply IH. eapply Forall_impl; [|exact HL]. cbn. lia.
Qed.

End EngineFacts.

Ltac run_effects :=
  repeat progress
    (cbv [bind ret throw get modify now log getThis getBackend setBackend set_fps set_model
          tidy fromPixels reverse1 resize expandDims0 alloc release item executeAsync
          getInputTensorDimensions
          set_this set_live set_nextId set_backend set_ticks set_console];
     cbn).

Ltac decide_ids :=
  repeat match goal with
         | |- context [Nat.eqb ?a ?a] => rewrite (Nat.eqb_refl a)
         | |- context [Nat.eqb ?a ?b] => rewrite (proj2 (Nat.eqb_neq a b)) by lia
         end; cbn.

Ltac fresh_ids := repeat constructor; lia.

Section DetectFacts.

Context {N : Type} `{Number N} {Pixel : Type}.
Variable host : Host N Pixel.

Lemma allocAll_run (outs : list (list nat * list N)) (o : ObjectDetection N) L n b t c :
  allocAll outs (mkState o L n b t c)
  = (Return (tensors n outs),
     mkState o (L ++ seq n (length outs)) (length outs + n) b t c).
Proof.
  revert L n. induction outs as [|[sh d] rest IH]; intros L n.
  - cbn. now rewrite app_nil_r.
  - cbn [allocAll]. run_effects. rewrite IH.
    rewrite <- app_assoc. cbn. now rewrite Nat.add_succ_r.
Qed.

Lemma disposeAll_run {V} (ts : list (Tensor V)) (o : ObjectDetection N) L n b t c :
  disposeAll ts (mkState o L n b t c)
  = (Return tt,
     mkState o (fold_left (fun l id => remove Nat.eq_dec id l) (map (@tid V) ts) L) n b t c).
Proof.
  revert L. induction ts as [|x rest IH]; intros L; [reflexivity|].
  cbn [disposeAll]. run_effects. apply IH.
Qed.

Lemma tid_tensors n (outs : list (list nat * list N)) : map (@tid _) (tensors n outs) = seq n (length outs).
Proof.
  revert n. induction outs as [|[sh d] rest IH]; intros n; cbn; [reflexivity|].
  now rewrite IH.
Qed.

Lemma Forall_remove (P : nat -> Prop) id l :
  Forall P l -> Forall P (remove Nat.eq_dec id l).
Proof.
  intros HP. apply Forall_forall. intros x Hx. apply in_remove in Hx.
  rewrite Forall_forall in HP. now apply HP.
Qed.

Lemma Forall_released (P : nat -> Prop) (batched : Tensor (image Pixel))
    (result : list (Tensor (list N))) l :
  Forall P l -> Forall P (released batched result l).
Proof.
  unfold released. intros HP. apply (Forall_remove (tid batched)) in HP.
  revert HP. generalize (remove Nat.eq_dec (tid batched) l).
  induction (map (@tid _) result) as [|x xs IH]; intros l0 HP; cbn; [assumption|].
  apply IH. now apply Forall_remove.
Qed.

Lemma detect_then_run tb h w batched result st :
  match nth_error result 0, nth_error result 1 with
  | Some r0, Some r1 =>
      let p := modelParams (this st) in
      match nonMaxSuppression host (values r1) (nth 1 (shape r1) 0) (nth 3 (shape r1) 0)
              (values r0) (maxNumBoxes p) (iouThreshold p) (scoreThreshold p) with
      | inl e =>
          exists l,
            detect_then host tb h w batched result st
            = (Throw e,
               mkState (this st) l (S (nextId st)) "cpu" (ticks st) (console st))
            /\ (wf st -> l = released batched result (live st))
      | inr selected =>
          exists l,
            detect_then host tb h w batched result st
            = (Return (buildDetectedObjects w h (values r1) (values r0) selected
                         (snd (calculateMaxScores (values r0) (nth 1 (shape r0) 0)
                                                  (nth 2 (shape r0) 0)))),
               mkState
                 (with_fps (this st)
                    (nround (ofZ 1000 / (ofZ (clock host (ticks st)) - ofZ tb)))%js)
                 l (2 + nextId st) (backend st) (S (ticks st)) (console st))
            /\ (wf st -> l = released batched result (live st))
      end
  | _, _ => detect_then host tb h w batched result st = (Throw (typeError "dataSync"), st)
  end.
Proof.
  destruct st as [o L n b t c]. unfold detect_then, wf.
  destruct result as [|r0 [|r1 rest]]; [reflexivity | reflexivity |].
  cbn [nth_error]. cbn zeta.
  destruct (nonMaxSuppression _ _ _ _ _ _ _ _) as [e|selected] eqn:Es.
  all: cbn [this live nextId] in *; run_effects;
    rewrite disposeAll_run; cbn;
    destruct (calculateMaxScores _ _ _) as [maxScores classes]; run_effects;
    rewrite Es; run_effects.
  all: eexists; (split; [reflexivity|]); intros Hwf.
  all: apply (Forall_released batched (r0 :: r1 :: rest)) in Hwf;
    unfold released in Hwf; cbn in Hwf;
    match type of Hwf with Forall _ ?l1 => generalize dependent l1 end;
    intros l1 Hl1; repeat rewrite <- app_assoc; cbn [app];
    rewrite (filter_live (n := n)) by (assumption || fresh_ids);
    cbn; decide_ids.
  - apply app_nil_r.
  - rewrite (remove_live (n := n)) by (assumption || lia).
    cbn [remove]. destruct (Nat.eq_dec (S n) (S n)) as [_|Hne];
      [apply app_nil_r | congruence].
Qed.



Lemma nth_error_tensors n (outs : list (list nat * list N)) k :
  nth_error (tensors n outs) k
  = option_map (fun '(sh, d) => mkTensor (k + n) sh d) (nth_error outs k).
Proof.
  revert n k. induction outs as [|[sh d] rest IH]; intros n [|k]; cbn; try reflexivity.
  rewrite IH. now rewrite Nat.add_succ_r.
Qed.

(** [detect] up to the point where the promise of [executeAsync] settles. *)
Lemma detect_run input st :
  let p := modelParams (this st) in
  exists l,
    (wf st -> l = live st ++ [batched_id st]) /\
    match model (this st) with
    | None =>
        detect host input st
        = (Throw (typeError "executeAsync"), preprocessed input st l)
    | Some m =>
        match execute host m (batch host input p) with
        | inl e => detect host input st = (Throw e, preprocessed input st l)
        | inr outs =>
            detect host input st
            = detect_then host (clock host (ticks st)) (height input) (width input)
                (mkTensor (batched_id st) (1 :: image_shape (batch host input p))
                          (batch host input p))
                (tensors (S (batched_id st)) outs)
                (mkState (this st)
                         (l ++ seq (S (batched_id st)) (length outs))
                         (length outs + S (batched_id st))
                         (backend st) (S (ticks st))
                         (console st ++ [Logged (height input) (width input)]))
        end
    end.
Proof.
  intros p. subst p. destruct st as [o L n b t c].
  unfold detect, preprocessed, batched_id, wf, batch.
  cbn [this live nextId backend ticks console].
  destruct (flipHorizontal (modelParams o)) eqn:Hf.
  all: eexists; split;
    [ intros Hwf
    | destruct (model o) as [m|] eqn:Hm;
      [ destruct (execute host m _) as [e|outs] eqn:He |];
      run_effects; rewrite Hf; run_effects; rewrite Hm; run_effects;
      try rewrite He; run_effects; try rewrite allocAll_run; reflexivity ].
  all: repeat rewrite <- app_assoc; cbn [app];
    rewrite (filter_live (n := n)) by (assumption || fresh_ids);
    cbn; decide_ids; reflexivity.
Qed.


(** *** What a call of [detect] amounts to *)

Lemma detect_then_outcome tb h w batched n outs st :
  fst (detect_then host tb h w batched (tensors n outs) st)
  = postprocess host (modelParams (this st)) w h outs.
Proof.
  pose proof (detect_then_run tb h w batched (tensors n outs) st) as R.
  unfold postprocess. rewrite !nth_error_tensors in R.
  destruct (nth_error outs 0) as [[sh0 scores]|]; cbn [option_map] in R; [|now rewrite R].
  destruct (nth_error outs 1) as [[sh1 boxes]|]; cbn [option_map] in R; [|now rewrite R].
  destruct (nonMaxSuppression _ _ _ _ _ _ _ _) as [e|selected];
    destruct R as [l [-> _]]; reflexivity.
Qed.

Lemma detect_then_this tb h w batched n outs st :
  this (snd (detect_then host tb h w batched (tensors n outs) st))
  = match postprocess host (modelParams (this st)) w h outs with
    | Return _ =>
        with_fps (this st) (nround (ofZ 1000 / (ofZ (clock host (ticks st)) - ofZ tb)))%js
    | _ => this st
    end.
Proof.
  pose proof (detect_then_run tb h w batched (tensors n outs) st) as R.
  unfold postprocess. rewrite !nth_error_tensors in R.
  destruct (nth_error outs 0) as [[sh0 scores]|]; cbn [option_map] in R; [|now rewrite R].
  destruct (nth_error outs 1) as [[sh1 boxes]|]; cbn [option_map] in R; [|now rewrite R].
  destruct (nonMaxSuppression _ _ _ _ _ _ _ _) as [e|selected];
    destruct R as [l [-> _]]; reflexivity.
Qed.

(** [detect] ends as [outcome host] says. *)
Lemma detect_outcome input st :
  fst (detect host input st) = outcome host (this st) input.
Proof.
  destruct (detect_run input st) as [l [_ R]]. unfold outcome.
  destruct (model (this st)) as [m|]; [|now rewrite R].
  destruct (execute host m _) as [e|outs]; [now rewrite R|].
  rewrite R, detect_then_outcome. reflexivity.
Qed.

(** [detect] changes the instance only when it returns, and then only
    its [fps]. *)
Lemma detect_this input st :
  this (snd (detect host input st))
  = match outcome host (this st) input with
    | Return _ => with_fps (this st) (measured host st)
    | _ => this st
    end.
Proof.
  destruct (detect_run input st) as [l [_ R]]. unfold outcome.
  destruct (model (this st)) as [m|]; [|now rewrite R].
  destruct (execute host m _) as [e|outs]; [now rewrite R|].
  rewrite R, detect_then_this. reflexivity.
Qed.

Lemma detect_live input st :
  wf st -> live (snd (detect host input st)) = live st ++ leftover host st input.
Proof.
  intros Hwf. destruct (detect_run input st) as [l [Hl R]]. unfold leftover.
  specialize (Hl Hwf). subst l.
  destruct (model (this st)) as [m|]; [|now rewrite R].
  destruct (execute host m _) as [e|outs]; [now rewrite R|].
  rewrite R. clear R.
  match goal with
  | |- context [detect_then host ?tb ?h ?w ?b ?r ?s] =>
      pose proof (detect_then_run tb h w b r s) as R;
      set (st2 := s) in *
  end.
  assert (Hwf2 : wf st2).
  { unfold wf, st2. cbn. unfold wf in Hwf.
    rewrite !Forall_app. repeat split.
    - eapply Forall_impl; [|exact Hwf]. cbn. unfold batched_id. intros a Ha. lia.
    - repeat constructor. lia.
    - apply Forall_forall. intros x Hx. apply in_seq in Hx. lia. }
  rewrite !nth_error_tensors in R.
  destruct (nth_error outs 0) as [[sh0 scores]|]; cbn [option_map] in R;
    [|rewrite R; unfold st2; cbn; now rewrite <- app_assoc].
  destruct (nth_error outs 1) as [[sh1 boxes]|]; cbn [option_map] in R;
    [|rewrite R; unfold st2; cbn; now rewrite <- app_assoc].
  assert (Hrel : released
                   (mkTensor (batched_id st)
                      (1 :: image_shape (batch host input (modelParams (this st))))
                      (batch host input (modelParams (this st))))
                   (tensors (S (batched_id st)) outs) (live st2) = live st).
  { unfold released, st2. cbn [live tid]. rewrite tid_tensors.
    rewrite <- app_assoc.
    rewrite (remove_live (n := nextId st)) by (assumption || unfold batched_id; lia).
    cbn [app remove].
    destruct (Nat.eq_dec (batched_id st) (batched_id st)) as [_|Hne]; [|congruence].
    rewrite notin_remove by (rewrite in_seq; lia).
    rewrite remove_seq; [reflexivity|].
    eapply Forall_impl; [|exact Hwf]. cbn. unfold batched_id. intros a Ha. lia. }
  destruct (nonMaxSuppression _ _ _ _ _ _ _ _) as [e|selected];
    destruct R as [l [-> Hl]]; cbn [snd live]; rewrite (Hl Hwf2), Hrel;
    now rewrite app_nil_r.
Qed.

End DetectFacts.

(* ================================================================== *)
(** ** Facts about the helpers and the methods *)
(* ================================================================== *)

Section HelperFacts.

Context {N : Type} `{Number N}.


Lemma fold_left_snoc_map {A : Type} (f : nat -> A) (l : list nat) (acc : list A) :
  fold_left (fun objects i => objects ++ [f i]) l acc = acc ++ map f l.
Proof.
  revert acc. induction l as [|i l IH]; intros acc; cbn.
  - now rewrite app_nil_r.
  - rewrite IH, <- app_assoc. reflexivity.
Qed.

Lemma buildDetectedObjects_map (width height : N) boxes scores indexes classes :
  buildDetectedObjects width height boxes scores indexes classes
  = map (fun idx => mkPrediction (toPixelBox (boxAt boxes idx) width height)
                                 (nth_error classes idx) (nth_error scores idx))
        indexes.
Proof.
  unfold buildDetectedObjects. rewrite fold_left_snoc_map. cbn [app].
  apply nth_error_ext. intros i. rewrite !nth_error_map.
  destruct (nth_error indexes i) as [idx|] eqn:E.
  - assert (Hi : i < length indexes) by (apply nth_error_Some; congruence).
    rewrite (nth_error_nth' _ 0 (n := i)) by (rewrite length_seq; exact Hi).
    rewrite seq_nth by exact Hi. cbn [option_map Nat.add].
    rewrite (nth_error_nth _ _ 0 E). reflexivity.
  - replace (nth_error (seq 0 (length indexes)) i) with (@None nat); [reflexivity|].
    symmetry. apply nth_error_None. rewrite length_seq. now apply nth_error_None.
Qed.

End HelperFacts.

Section ScanFacts.

Context {N : Type} `{Number N}.

Lemma fold_left_pair_map {A B : Type} (f : nat -> A * B) (l : list nat)
    (a0 : list A) (b0 : list B) :
  fold_left (fun '(a, b) i => let '(x, y) := f i in (a ++ [x], b ++ [y])) l (a0, b0)
  = (a0 ++ map (fun i => fst (f i)) l, b0 ++ map (fun i => snd (f i)) l).
Proof.
  revert a0 b0. induction l as [|i l IH]; intros a0 b0; cbn.
  - now rewrite !app_nil_r.
  - destruct (f i) as [x y] eqn:E. rewrite IH, <- !app_assoc. reflexivity.
Qed.

(** [calculateMaxScores] scans each box on its own. *)
Lemma calculateMaxScores_scan (scores : list N) (numBoxes numClasses : nat) :
  calculateMaxScores scores numBoxes numClasses
  = (map (fun i => fst (scanClasses scores numClasses i)) (seq 0 numBoxes),
     map (fun i => snd (scanClasses scores numClasses i)) (seq 0 numBoxes)).
Proof.
  unfold calculateMaxScores.
  exact (fold_left_pair_map (fun i => scanClasses scores numClasses i)
           (seq 0 numBoxes) [] []).
Qed.

End ScanFacts.

Section ExactScan.

Local Open Scope Q_scope.

Lemma gt_fin (a b : Q) : (XFin a >? XFin b)%js = true <-> b < a.
Proof.
  cbn. destruct (Qlt_le_dec b a); split; intros; try easy. lra.
Qed.

(** Where the scan of one box gives the maximum and the first class that
    attains it: as soon as one score of the box is above [Number.MIN_VALUE];
    otherwise it leaves [Number.MIN_VALUE] and -1. *)
Lemma scanClasses_exact (scores : list xnum) (numClasses i : nat) (q : nat -> Q) :
  (forall j, (j < numClasses)%nat -> read scores (i * numClasses + j) = XFin (q j)) ->
  let '(max, index) := scanClasses scores numClasses i in
  (index = (-1)%Z /\ max = MIN_VALUE
   /\ forall j, (j < numClasses)%nat -> q j <= Exact.leastPositive)
  \/ (exists k, index = Z.of_nat k /\ (k < numClasses)%nat /\ max = XFin (q k)
                /\ Exact.leastPositive < q k
                /\ (forall j, (j < numClasses)%nat -> q j <= q k)
                /\ (forall j, (j < k)%nat -> q j < q k)).
Proof.
  unfold scanClasses. generalize (i * numClasses)%nat as base. intros base.
  induction numClasses as [|n IH]; intros Hq.
  - cbn. left. repeat split. intros j Hj. lia.
  - rewrite seq_S, fold_left_app. cbn [fold_left Nat.add].
    assert (Hq' : forall j, (j < n)%nat -> read scores (base + j) = XFin (q j))
      by (intros j Hj; apply Hq; lia).
    specialize (IH Hq').
    destruct (fold_left _ (seq 0 n) _) as [max index].
    rewrite (Hq n) by lia.
    destruct IH as [[-> [-> Hall]]|[k [-> [Hk [-> [Hpos [Hall Hfirst]]]]]]].
    + change (@MIN_VALUE xnum _) with (XFin Exact.leastPositive).
      destruct (XFin (q n) >? XFin Exact.leastPositive)%js eqn:E.
      * apply gt_fin in E. right. exists n. repeat split; try lia; try assumption.
        -- intros j Hj. destruct (Nat.eq_dec j n) as [->|Hne]; [lra|].
           specialize (Hall j ltac:(lia)). lra.
        -- intros j Hj. specialize (Hall j Hj). lra.
      * left. repeat split. intros j Hj.
        destruct (Nat.eq_dec j n) as [->|Hne]; [|apply Hall; lia].
        destruct (Qlt_le_dec Exact.leastPositive (q n)) as [Hlt|Hle]; [|assumption].
        apply gt_fin in Hlt. congruence.
    + destruct (XFin (q n) >? XFin (q k))%js eqn:E.
      * apply gt_fin in E. right. exists n. repeat split; try lia; try lra.
        -- intros j Hj. destruct (Nat.eq_dec j n) as [->|Hne]; [lra|].
           specialize (Hall j ltac:(lia)). lra.
        -- intros j Hj. specialize (Hall j Hj). lra.
      * right. exists k. repeat split; try lia; try assumption.
        intros j Hj. destruct (Nat.eq_dec j n) as [->|Hne]; [|apply Hall; lia].
        destruct (Qlt_le_dec (q k) (q n)) as [Hlt|Hle]; [|assumption].
        apply gt_fin in Hlt. congruence.
Qed.

End ExactScan.

Section MethodFacts.

Context {N : Type} `{Number N} {Pixel : Type}.
Variable host : Host N Pixel.

(** [load] leaves [fps] at 0, however it ends. *)
Lemma load_fps (st : State N) :
  fps (this (snd (load host st))) = Some (ofZ 0).
Proof.
  destruct st as [o L n b t c]. unfold load, catch, exit.
  run_effects.
  destruct (loadGraphModel host _) as [e|m]; run_effects; [reflexivity|].
  destruct (execute host m (zeros host)) as [e|outs]; run_effects; [reflexivity|].
  rewrite allocAll_run. cbn. rewrite disposeAll_run. reflexivity.
Qed.

Lemma getFPS_run (st : State N) : getFPS st = (Return (fps (this st)), st).
Proof. reflexivity. Qed.


End MethodFacts.

Section ExactFacts.

Local Open Scope Q_scope.



Lemma iszero_inject_Z (z : Z) : Exact.iszero (inject_Z z) = (z =? 0)%Z.
Proof. reflexivity. Qed.





End ExactFacts.

(* ================================================================== *)
(** ** Facts about the Suppressor *)
(* ================================================================== *)

Module SuppressorFacts.

Import Suppressor.

Lemma below_true (x y : Q) : (x < y)%Q -> below x y = true.
Proof. intros Hlt. unfold below. destruct (Qlt_le_dec x y); [reflexivity | lra]. Qed.

Lemma below_false (x y : Q) : (y <= x)%Q -> below x y = false.
Proof. intros Hle. unfold below. destruct (Qlt_le_dec x y); [lra | reflexivity]. Qed.

Lemma below_spec (x y : Q) : below x y = true <-> (x < y)%Q.
Proof.
  unfold below. destruct (Qlt_le_dec x y); split; intros; try easy. lra.
Qed.

Lemma below_eq (x y y' : Q) : (y == y')%Q -> below x y = below x y'.
Proof.
  intros E. unfold below.
  destruct (Qlt_le_dec x y), (Qlt_le_dec x y'); try reflexivity; lra.
Qed.

Lemma intersection_sym (a b : Box) : (intersection a b == intersection b a)%Q.
Proof.
  unfold intersection.
  rewrite (Q.min_comm (maxY a)), (Q.max_comm (minY a)),
          (Q.min_comm (maxX a)), (Q.max_comm (minX a)).
  reflexivity.
Qed.

Lemma iou_sym (a b : Box) : (iou a b == iou b a)%Q.
Proof.
  unfold iou. rewrite (intersection_sym a b).
  assert (E : (area a + area b - intersection b a
               == area b + area a - intersection b a)%Q) by ring.
  now rewrite E.
Qed.

Section Facts.

Variables (boxes : list Box) (scores : list Q).
Variables (maxOutputSize : nat) (iouThreshold scoreThreshold : Q).

Local Abbreviation score := (score scores).
Local Abbreviation box := (box boxes).
Local Abbreviation overlaps := (overlaps boxes iouThreshold).
Local Abbreviation descending := (descending scores).
Local Abbreviation compatible := (compatible boxes iouThreshold).
Local Abbreviation accept := (accept boxes maxOutputSize iouThreshold).
Local Abbreviation insert := (insert scores).
Local Abbreviation byScore := (byScore scores).

Lemma overlaps_sym (c s : nat) : overlaps c s = overlaps s c.
Proof. unfold Suppressor.overlaps. apply below_eq, iou_sym. Qed.

(** *** Ordering the candidates *)

Lemma In_insert (c i : nat) (l : list nat) : In i (insert c l) <-> i = c \/ In i l.
Proof.
  induction l as [|x rest IH]; cbn.
  - intuition.
  - destruct (below (score c) (score x)); cbn; rewrite ?IH; intuition.
Qed.

Lemma In_byScore (i : nat) (l : list nat) : In i (byScore l) <-> In i l.
Proof.
  induction l as [|x rest IH]; cbn; [reflexivity|].
  rewrite In_insert, IH. intuition.
Qed.

Lemma NoDup_insert (c : nat) (l : list nat) :
  ~ In c l -> NoDup l -> NoDup (insert c l).
Proof.
  induction l as [|x rest IH]; intros Hc Hl; cbn.
  - constructor; [easy | constructor].
  - destruct (below (score c) (score x)).
    + inversion Hl; subst. constructor.
      * rewrite In_insert. cbn in Hc. intuition.
      * apply IH; [cbn in Hc; intuition | assumption].
    + constructor; assumption.
Qed.

Lemma NoDup_byScore (l : list nat) : NoDup l -> NoDup (byScore l).
Proof.
  induction l as [|x rest IH]; intros Hl; cbn; [constructor|].
  inversion Hl as [|? ? Hx Hrest]; subst. apply NoDup_insert; [|now apply IH].
  intros Hin. apply (proj1 (In_byScore x rest)) in Hin. contradiction.
Qed.

Lemma sorted_insert (c : nat) (l : list nat) :
  StronglySorted descending l -> StronglySorted descending (insert c l).
Proof.
  induction l as [|x rest IH]; intros Hs; cbn.
  - repeat constructor.
  - inversion Hs as [|? ? Hrest Hx]; subst.
    destruct (below (score c) (score x)) eqn:E.
    + apply below_spec in E. constructor; [now apply IH|].
      apply Forall_forall. intros y Hy. apply In_insert in Hy.
      destruct Hy as [->|Hy]; [unfold descending; lra|].
      rewrite Forall_forall in Hx. now apply Hx.
    + assert (Hle : (score x <= score c)%Q).
      { unfold below in E. destruct (Qlt_le_dec (score c) (score x)); [discriminate | assumption]. }
      constructor; [assumption|]. constructor; [exact Hle|].
      eapply Forall_impl; [|exact Hx]. unfold descending. intros y Hy. lra.
Qed.

Lemma sorted_byScore (l : list nat) : StronglySorted descending (byScore l).
Proof.
  induction l as [|x rest IH]; cbn; [constructor | now apply sorted_insert].
Qed.

Lemma In_candidates (i : nat) :
  In i (candidates scores scoreThreshold)
  <-> (i < length scores)%nat /\ ~ (score i < scoreThreshold)%Q.
Proof.
  unfold candidates. rewrite In_byScore, filter_In, in_seq, negb_true_iff.
  rewrite <- below_spec. destruct (below (score i) scoreThreshold); intuition; try lia; easy.
Qed.

Lemma NoDup_candidates : NoDup (candidates scores scoreThreshold).
Proof. apply NoDup_byScore, NoDup_filter, seq_NoDup. Qed.

(** *** The greedy pass *)

Lemma accept_cases (selected : list nat) (c : nat) :
  (accept selected c = selected ++ [c]
   /\ (length selected < maxOutputSize)%nat
   /\ forall s, In s selected -> overlaps c s = false)
  \/ (accept selected c = selected
      /\ ~ ((length selected < maxOutputSize)%nat
            /\ forall s, In s selected -> overlaps c s = false)).
Proof.
  unfold Suppressor.accept.
  destruct (Nat.ltb_spec (length selected) maxOutputSize) as [Hlt|Hge]; cbn [andb].
  - destruct (forallb (fun s => negb (overlaps c s)) selected) eqn:E.
    + left. repeat split; [assumption|]. intros s Hs.
      rewrite forallb_forall in E. apply negb_true_iff. now apply E.
    + right. split; [reflexivity|]. intros [_ Hall].
      assert (forallb (fun s => negb (overlaps c s)) selected = true); [|congruence].
      apply forallb_forall. intros s Hs. apply negb_true_iff. now apply Hall.
  - right. split; [reflexivity|]. intros [Hlt _]. lia.
Qed.

Lemma fold_accept_prefix (cands selected : list nat) :
  exists added, fold_left accept cands selected = selected ++ added
                /\ incl added cands.
Proof.
  revert selected. induction cands as [|c rest IH]; intros selected; cbn [fold_left].
  - exists []. split; [now rewrite app_nil_r | easy].
  - destruct (accept_cases selected c) as [[-> _]|[-> _]].
    + destruct (IH (selected ++ [c])) as [added [-> Hincl]].
      exists (c :: added). split; [now rewrite <- app_assoc|].
      intros x [->|Hx]; [now left | right; now apply Hincl].
    + destruct (IH selected) as [added [-> Hincl]].
      exists added. split; [reflexivity|]. intros x Hx. right. now apply Hincl.
Qed.

Lemma length_fold_accept (cands selected : list nat) :
  (length selected <= maxOutputSize)%nat ->
  (length (fold_left accept cands selected) <= maxOutputSize)%nat.
Proof.
  revert selected. induction cands as [|c rest IH]; intros selected Hlen; cbn [fold_left];
    [assumption|].
  apply IH. destruct (accept_cases selected c) as [[-> [Hlt _]]|[-> _]]; [|assumption].
  rewrite length_app. cbn. lia.
Qed.

Lemma compatible_snoc (selected : list nat) (c : nat) :
  compatible selected -> (forall s, In s selected -> overlaps c s = false) ->
  compatible (selected ++ [c]).
Proof.
  unfold compatible. induction selected as [|x rest IH]; intros Hc Hall; cbn.
  - repeat constructor.
  - inversion Hc as [|? ? Hx Hrest]; subst. constructor.
    + apply Forall_app. split; [assumption|]. constructor; [|constructor].
      apply Hall. now left.
    + apply IH; [assumption|]. intros s Hs. apply Hall. now right.
Qed.

Lemma compatible_fold_accept (cands selected : list nat) :
  compatible selected -> compatible (fold_left accept cands selected).
Proof.
  revert selected. induction cands as [|c rest IH]; intros selected Hc; cbn [fold_left];
    [assumption|].
  apply IH. destruct (accept_cases selected c) as [[-> [_ Hall]]|[-> _]]; [|assumption].
  now apply compatible_snoc.
Qed.

Lemma greedy_membership (pre post : list nat) (c : nat) :
  NoDup (pre ++ c :: post) ->
  let accepted := fold_left accept pre [] in
  In c (fold_left accept (pre ++ c :: post) [])
  <-> (length accepted < maxOutputSize)%nat
      /\ forall s, In s accepted -> overlaps c s = false.
Proof.
  intros Hnd accepted. rewrite fold_left_app. fold accepted. cbn [fold_left].
  assert (Hpre : ~ In c accepted).
  { destruct (fold_accept_prefix pre []) as [added [E Hincl]]. fold accepted in E.
    rewrite E. cbn. intros Hin. apply Hincl in Hin.
    apply NoDup_remove_2 in Hnd. apply Hnd. apply in_or_app. now left. }
  assert (Hpost : ~ In c post).
  { apply NoDup_remove_2 in Hnd. intros Hin. apply Hnd. apply in_or_app. now right. }
  destruct (accept_cases accepted c) as [[E [Hlt Hall]]|[E Hnot]]; rewrite E.
  - split; [intros _; now split|]. intros _.
    destruct (fold_accept_prefix post (accepted ++ [c])) as [added [-> _]].
    apply in_or_app. left. apply in_or_app. right. now left.
  - split; [|intros Hyes; now elim Hnot].
    intros Hin. exfalso.
    destruct (fold_accept_prefix post accepted) as [added [E' Hincl]].
    rewrite E' in Hin. apply in_app_or in Hin. destruct Hin as [Hin|Hin]; [easy|].
    apply Hincl in Hin. easy.
Qed.

End Facts.


Lemma suppress_two (b0 b1 : Box) (s0 s1 : Q) (maxOutputSize : nat)
    (iouThreshold scoreThreshold : Q) :
  (scoreThreshold < s0)%Q -> (scoreThreshold < s1)%Q ->
  suppress [b0; b1] [s0; s1] maxOutputSize iouThreshold scoreThreshold
  = let first := if below s0 s1 then 1 else 0 in
    let second := if below s0 s1 then 0 else 1 in
    if (0 <? maxOutputSize)%nat
    then if (1 <? maxOutputSize)%nat && negb (below iouThreshold (iou b0 b1))
         then [first; second]
         else [first]
    else [].
Proof.
  intros H0 H1. unfold suppress, candidates. cbn [length seq filter].
  change (score [s0; s1] 0) with s0. change (score [s0; s1] 1) with s1.
  rewrite (below_false (x := s0) (y := scoreThreshold)) by lra.
  rewrite (below_false (x := s1) (y := scoreThreshold)) by lra.
  cbn [negb byScore fold_right insert].
  change (score [s0; s1] 0) with s0. change (score [s0; s1] 1) with s1.
  assert (Hov : overlaps [b0; b1] iouThreshold 1 0 = below iouThreshold (iou b0 b1)).
  { unfold overlaps. apply below_eq. apply iou_sym. }
  assert (Hov' : overlaps [b0; b1] iouThreshold 0 1 = below iouThreshold (iou b0 b1))
    by reflexivity.
  destruct (below s0 s1); cbn [fold_left]; unfold accept; cbn [length forallb andb app];
    destruct (0 <? maxOutputSize)%nat eqn:E0; cbn [andb app length forallb];
    rewrite ?Hov, ?Hov', ?andb_true_r;
    try reflexivity.
  all: destruct (Nat.ltb_spec 0 maxOutputSize) as [Hlt|Hge]; try discriminate.
  all: replace (0 <? maxOutputSize)%nat with false by (symmetry; apply Nat.ltb_ge; lia).
  all: destruct (1 <? maxOutputSize)%nat eqn:E1;
    [apply Nat.ltb_lt in E1; lia | reflexivity].
Qed.

End SuppressorFacts.

(* ================================================================== *)
(** ** The properties of the pipeline *)
(* ================================================================== *)

Import Suppressor SuppressorFacts.

Local Open Scope string_scope.
Local Open Scope list_scope.

(** [Mock.loaded] is the state [load] leaves. *)
Lemma loaded_is_load (flip : bool) :
  load (Mock.host Mock.spotExecute Mock.ticking) (Mock.fresh flip)
  = (Return tt, Mock.loaded flip).
Proof. destruct flip; vm_compute; reflexivity. Qed.




(** C2.  On the Suppressor as the specification describes it: (a) no
    selected index has a score below [scoreThreshold]; (b) no two selected
    boxes have an intersection-over-union exceeding [iouThreshold]; (c) the
    candidates are the indexes whose score is not below the threshold, each
    once, in descending score order, and a candidate is selected exactly
    when, of the candidates before it, fewer than [maxOutputSize] were
    accepted and none of the accepted ones overlaps it beyond the threshold;
    (d) at most [maxOutputSize] indexes are returned.  In particular, of two
    boxes with distinct scores above the threshold that overlap beyond
    [iouThreshold] the lower-scoring one is never returned and the
    higher-scoring one is (when [maxOutputSize >= 1]), and two boxes that
    overlap less are both returned (when [maxOutputSize >= 2]). *)
Theorem suppress_spec :
  (forall (boxes : list Box) (scores : list Q) (maxOutputSize : nat)
          (iouThreshold scoreThreshold : Q),
      let r := suppress boxes scores maxOutputSize iouThreshold scoreThreshold in
      let cands := candidates scores scoreThreshold in
      (forall i, In i r ->
          (i < length scores)%nat /\ ~ (score scores i < scoreThreshold)%Q)
      /\ (forall i j, In i r -> In j r -> i <> j ->
            ~ (iouThreshold < iou (box boxes i) (box boxes j))%Q)
      /\ (StronglySorted (fun i j => (score scores j <= score scores i)%Q) cands
          /\ NoDup cands
          /\ (forall i, In i cands
                <-> (i < length scores)%nat /\ ~ (score scores i < scoreThreshold)%Q)
          /\ forall pre c post, cands = pre ++ c :: post ->
               let accepted :=
                 fold_left (accept boxes maxOutputSize iouThreshold) pre [] in
               In c r
               <-> (length accepted < maxOutputSize)%nat
                   /\ forall s, In s accepted ->
                        ~ (iouThreshold < iou (box boxes c) (box boxes s))%Q)
      /\ (length r <= maxOutputSize)%nat)
  /\ (forall (b0 b1 : Box) (s0 s1 : Q) (maxOutputSize : nat)
             (iouThreshold scoreThreshold : Q),
        (scoreThreshold < s0)%Q -> (scoreThreshold < s1)%Q -> ~ (s0 == s1)%Q ->
        (iouThreshold < iou b0 b1)%Q ->
        let r := suppress [b0; b1] [s0; s1] maxOutputSize iouThreshold scoreThreshold in
        let higher := if below s1 s0 then 0%nat else 1%nat in
        let lower := if below s1 s0 then 1%nat else 0%nat in
        ~ In lower r /\ ((1 <= maxOutputSize)%nat -> r = [higher]))
  /\ (forall (b0 b1 : Box) (s0 s1 : Q) (maxOutputSize : nat)
             (iouThreshold scoreThreshold : Q),
        (scoreThreshold < s0)%Q -> (scoreThreshold < s1)%Q ->
        (iou b0 b1 < iouThreshold)%Q -> (2 <= maxOutputSize)%nat ->
        let r := suppress [b0; b1] [s0; s1] maxOutputSize iouThreshold scoreThreshold in
        In 0%nat r /\ In 1%nat r /\ length r = 2%nat).
Proof.
  split; [|split].
  - intros boxes scores maxOutputSize iouThreshold scoreThreshold r cands.
    assert (Hsub : forall i, In i r -> In i cands).
    { intros i Hi. unfold r, suppress in Hi.
      destruct (fold_accept_prefix boxes maxOutputSize iouThreshold cands [])
        as [added [E Hincl]].
      fold cands in Hi. rewrite E in Hi. now apply Hincl. }
    split; [|split; [|split]].
    + intros i Hi. apply (In_candidates scores scoreThreshold). now apply Hsub.
    + intros i j Hi Hj Hne Hlt.
      assert (Hc : compatible boxes iouThreshold r)
        by (apply compatible_fold_accept; constructor).
      destruct (ForallOrdPairs_In Hc _ _ Hi Hj) as [E|[Hij|Hji]]; [contradiction| |].
      * rewrite overlaps_sym in Hij. unfold overlaps in Hij.
        apply below_spec in Hlt. congruence.
      * unfold overlaps in Hji. apply below_spec in Hlt. congruence.
    + split; [apply sorted_byScore|]. split; [apply NoDup_candidates|].
      split; [apply In_candidates|].
      intros pre c post E accepted.
      pose proof (NoDup_candidates scores scoreThreshold) as Hnd.
      fold cands in Hnd. rewrite E in Hnd.
      unfold r, suppress. fold cands. rewrite E.
      rewrite (@greedy_membership boxes maxOutputSize iouThreshold pre post c Hnd).
      fold accepted. apply and_iff_compat_l.
      split; intros Hall s Hs; specialize (Hall s Hs).
      * intros Hlt. apply below_spec in Hlt. unfold overlaps in Hall. congruence.
      * unfold overlaps. destruct (below _ _) eqn:Eb; [|reflexivity].
        apply below_spec in Eb. contradiction.
    + apply length_fold_accept. cbn. lia.
  - intros b0 b1 s0 s1 maxOutputSize iouThreshold scoreThreshold H0 H1 Hne Hiou
           r higher lower.
    assert (Er : r = if (0 <? maxOutputSize)%nat then [higher] else []).
    { unfold r, higher. rewrite suppress_two by assumption. cbn zeta.
      rewrite (below_true Hiou), andb_false_r.
      destruct (0 <? maxOutputSize)%nat; [|reflexivity].
      unfold below. destruct (Qlt_le_dec s0 s1), (Qlt_le_dec s1 s0); try reflexivity.
      - lra.
      - exfalso. apply Hne. lra. }
    split.
    + rewrite Er. unfold higher, lower.
      destruct (0 <? maxOutputSize)%nat, (below s1 s0); cbn; lia.
    + intros Hmax. rewrite Er.
      now replace (0 <? maxOutputSize)%nat with true by (symmetry; apply Nat.ltb_lt; lia).
  - intros b0 b1 s0 s1 maxOutputSize iouThreshold scoreThreshold H0 H1 Hiou Hmax r.
    subst r. rewrite suppress_two by assumption. cbn zeta.
    replace (0 <? maxOutputSize)%nat with true by (symmetry; apply Nat.ltb_lt; lia).
    replace (1 <? maxOutputSize)%nat with true by (symmetry; apply Nat.ltb_lt; lia).
    rewrite (below_false (x := iouThreshold) (y := iou b0 b1)) by lra.
    destruct (below s0 s1); cbn; intuition.
Qed.

(** C2 at concrete boxes. *)
Lemma suppress_spec_witness :
  let near := mkBox 0 0 1 1 in
  let shifted := mkBox 0 (1 # 10) 1 1 in
  let far := mkBox 0 2 1 3 in
  let half := (1 # 2)%Q in
  suppress [near; shifted] [9 # 10; 95 # 100]%Q 5 half half = [1%nat]
  /\ In 0%nat (suppress [near; far] [9 # 10; 95 # 100]%Q 5 half half)
  /\ length (suppress [near; shifted; far] [9 # 10; 95 # 100; 1]%Q 1 half half) <= 1.
Proof.
  intros near shifted far half. split; [|split].
  - apply (proj1 (proj2 suppress_spec) near shifted (9 # 10)%Q (95 # 100)%Q 5%nat half half).
    + reflexivity.
    + reflexivity.
    + discriminate.
    + reflexivity.
    + lia.
  - apply (proj2 (proj2 suppress_spec) near far (9 # 10)%Q (95 # 100)%Q 5%nat half half).
    + reflexivity.
    + reflexivity.
    + reflexivity.
    + lia.
  - apply (proj1 suppress_spec [near; shifted; far] [9 # 10; 95 # 100; 1]%Q 1%nat half half).
Defined.

(** C3 fails on the code.  For one box whose three class scores are all 0,
    [calculateMaxScores] returns [Number.MIN_VALUE] and class -1, where the
    maximum score is 0 and the first class attaining it is 0: the running
    maximum starts at [Number.MIN_VALUE], the smallest positive number, and
    the comparison is strict. *)
Theorem calculateMaxScores_all_zero :
  calculateMaxScores [0; 0; 0]%float 1 3 = ([Float64.MIN_VALUE], [(-1)%Z]).
Proof. vm_compute. reflexivity. Qed.

(** The example of C3: on the 2-box, 3-class buffer the maxima are
    [0.9, 0.5] and the classes [1, 0], the tie resolved to the lower index. *)
Lemma calculateMaxScores_example :
  calculateMaxScores [0.1; 0.9; 0.2; 0.5; 0.5; 0.3]%float 2 3
  = ([0.9; 0.5]%float, [1%Z; 0%Z]).
Proof. vm_compute. reflexivity. Qed.



(** [getValidResolution] on binary64 numbers, at the default scale factor
    and stride. *)
Lemma getValidResolution_binary64_examples :
  (getValidResolution 0.7 300 16 = 209
   /\ getValidResolution 0.7 640 16 = 433
   /\ getValidResolution 0.7 480 16 = 321)%float.
Proof. repeat split; vm_compute; reflexivity. Qed.

(** On binary64 numbers, at the default scale factor and for the strides 8,
    16 and 32, the result is an integer congruent to 1 modulo the stride for
    every integer dimension from 1 to 2048. *)
Lemma getValidResolution_binary64_congruent :
  forallb (fun stride => congruent_upto Float64.to_Z 0.7%float stride 2048)
          [8; 16; 32]%Z
  = true.
Proof. vm_compute. reflexivity. Qed.

(** C5.  [buildDetectedObjects] maps every selected box
    [minY, minX, maxY, maxX] to [x = minX * width], [y = minY * height],
    [w = maxX * width - x], [h = maxY * height - y], as [toPixelBox] of the
    specification does; [detect] applies it with the frame's own [width] and
    [height] (the resized dimensions only enter the batch given to the
    engine); and on binary64 numbers [toPixelBox([0.1, 0.2, 0.6, 0.8], 100,
    200)] is [20, 20, 60, 100]. *)
Theorem buildDetectedObjects_pixel_boxes :
  (forall (N : Type) (number : Number N) (width height : N)
          (boxes scores : list N) (indexes : list nat) (classes : list Z),
      buildDetectedObjects width height boxes scores indexes classes
      = map (fun idx => mkPrediction (toPixelBox (boxAt boxes idx) width height)
                                     (nth_error classes idx) (nth_error scores idx))
            indexes)
  /\ (forall (N : Type) (number : Number N) (Pixel : Type) (host : Host N Pixel)
             (input : Frame N Pixel) (st : State N) (m : GraphModel)
             (outs : list (list nat * list N)),
        model (this st) = Some m ->
        execute host m (batch host input (modelParams (this st))) = inr outs ->
        fst (detect host input st)
        = postprocess host (modelParams (this st)) (width input) (height input) outs)
  /\ toPixelBox [0.1; 0.2; 0.6; 0.8]%float 100%float 200%float
     = [20; 20; 60; 100]%float.
Proof.
  split; [|split].
  - intros. apply buildDetectedObjects_map.
  - intros N number Pixel host input st m outs Hm He.
    rewrite detect_outcome. unfold outcome. now rewrite Hm, He.
  - vm_compute. reflexivity.
Qed.

(** C5 on a run of [detect]: a frame of width 100 and height 200, resized
    to 65 by 129 for the engine, and the box [0.1, 0.2, 0.6, 0.8]. *)
Lemma buildDetectedObjects_pixel_boxes_witness :
  let host := Mock.host Mock.fixedExecute Mock.ticking in
  fst (detect host Mock.frame100x200 (Mock.loaded true))
  = Return [mkPrediction [20; 20; 60; 100]%float (Some 0%Z) (Some 1%float)].
Proof.
  intros host.
  rewrite (proj1 (proj2 buildDetectedObjects_pixel_boxes) float _ bool host
             Mock.frame100x200 (Mock.loaded true) (mkModel 1 false)
             [ ([1; 1; 1], [1%float]);
               ([1; 1; 1; 4], [0.1; 0.2; 0.6; 0.8]%float) ]
             eq_refl eq_refl).
  vm_compute. reflexivity.
Defined.




(** C7 fails on the code.  When the inference call fails, [detect] fails
    with the engine's error and the preprocessed tensor (id 6) is still held
    by the engine: only the function passed to [then] disposes it. *)
Theorem detect_rejected_keeps_batched :
  let host := Mock.host Mock.failingExecute Mock.ticking in
  exists st',
    detect host Mock.handLeft (Mock.loaded true) = (Throw Mock.inferenceError, st')
    /\ live (Mock.loaded true) = [0]
    /\ batched_id (Mock.loaded true) = 6
    /\ live st' = [0; 6].
Proof.
  intros host. eexists. split; [vm_compute; reflexivity|].
  repeat split.
Qed.


(** C9, as stated, fails.  On a freshly constructed instance, before any
    call of [detect], [getFPS] returns [undefined], not 0. *)
Lemma getFPS_undefined_before_load :
  fst (getFPS (Mock.fresh true)) = Return None
  /\ fst (getFPS (Mock.fresh true)) <> Return (Some 0%float).
Proof. split; [reflexivity | discriminate]. Qed.

(** C9, amended.  After a call of [detect] that returned, [getFPS] returns
    [round(1000 / (timeEnd - timeBegin))] of that call; a call of [detect]
    that failed leaves the value unchanged; [load] sets it to 0; and on a
    freshly constructed instance, on which [load] has not run, it is
    [undefined]. *)
Theorem getFPS_spec (N : Type) (number : Number N) (Pixel : Type)
    (host : Host N Pixel) (input : Frame N Pixel) (st : State N) :
  let timeBegin := clock host (ticks st) in
  let timeEnd := clock host (S (ticks st)) in
  (forall preds, fst (detect host input st) = Return preds ->
     fst (getFPS (snd (detect host input st)))
     = Return (Some (nround (ofZ 1000 / (ofZ timeEnd - ofZ timeBegin)))%js))
  /\ (forall e, fst (detect host input st) = Throw e ->
        fst (getFPS (snd (detect host input st))) = fst (getFPS st))
  /\ fst (getFPS (snd (load host st))) = Return (Some (ofZ 0))
  /\ (forall p l n b t c,
        fst (getFPS (mkState (new_ObjectDetection host p) l n b t c)) = Return None).
Proof.
  intros timeBegin timeEnd. split; [|split; [|split]].
  - intros preds Hret. rewrite getFPS_run. cbn [fst].
    rewrite detect_this, <- detect_outcome, Hret. reflexivity.
  - intros e Hthrow. rewrite !getFPS_run. cbn [fst].
    rewrite detect_this, <- detect_outcome, Hthrow. reflexivity.
  - rewrite getFPS_run. cbn [fst]. now rewrite load_fps.
  - reflexivity.
Qed.

(** The amended C9 on two runs, one that returns after 50 ms and one
    whose inference call fails. *)
Lemma getFPS_spec_witness :
  let host := Mock.host Mock.spotExecute Mock.ticking in
  fst (getFPS (snd (detect host Mock.handLeft (Mock.loaded true))))
  = Return (Some 20%float)
  /\ fst (getFPS (snd (detect (Mock.host Mock.failingExecute Mock.ticking)
                         Mock.handLeft (Mock.loaded true))))
     = Return (Some 0%float).
Proof.
  intros host. split.
  - rewrite (proj1 (@getFPS_spec float _ bool host Mock.handLeft (Mock.loaded true))
               [mkPrediction [3; 0; 1; 1]%float (Some 0%Z) (Some 1%float)]).
    + vm_compute. reflexivity.
    + vm_compute. reflexivity.
  - rewrite (proj1 (proj2 (@getFPS_spec float _ bool (Mock.host Mock.failingExecute Mock.ticking)
                             Mock.handLeft (Mock.loaded true)))
               Mock.inferenceError).
    + reflexivity.
    + vm_compute. reflexivity.
Defined.

(** C10.  When a call of [detect] returns and the elapsed time it measured
    is 0, the [fps] it stores, and [getFPS] returns afterwards, is
    [Infinity]. *)
Theorem detect_zero_elapsed_fps (Pixel : Type) (host : Host float Pixel)
    (input : Frame float Pixel) (st : State float) (preds : list (prediction float)) :
  fst (detect host input st) = Return preds ->
  (ofZ (clock host (S (ticks st))) - ofZ (clock host (ticks st)))%js = 0%float ->
  fps (this (snd (detect host input st))) = Some infinity
  /\ fst (getFPS (snd (detect host input st))) = Return (Some infinity).
Proof.
  intros Hret Hzero.
  assert (Hfps : fps (this (snd (detect host input st))) = Some infinity).
  { rewrite detect_this. rewrite <- detect_outcome, Hret.
    unfold with_fps, measured. cbn [fps]. rewrite Hzero. reflexivity. }
  split; [exact Hfps|]. rewrite getFPS_run. cbn [fst]. now rewrite Hfps.
Qed.

(** C10 with a clock that stands still. *)
Lemma detect_zero_elapsed_fps_witness :
  let host := Mock.host Mock.spotExecute Mock.standing in
  fst (getFPS (snd (detect host Mock.handLeft (Mock.loaded true)))) = Return (Some infinity).
Proof.
  intros host.
  apply (@detect_zero_elapsed_fps bool host Mock.handLeft (Mock.loaded true)
           [mkPrediction [3; 0; 1; 1]%float (Some 0%Z) (Some 1%float)]).
  - vm_compute. reflexivity.
  - vm_compute. reflexivity.
Defined.

(* ================================================================== *)
(** ** Further properties: the engine, the parameters, the helpers and
       the video functions *)
(* ================================================================== *)

Section MoreDetectFacts.

Context {N : Type} `{Number N} {Pixel : Type}.
Variable host : Host N Pixel.

(** The backend [detect] leaves active: the one it found, except when the
    suppression step throws. *)
Lemma detect_backend_cases (input : Frame N Pixel) (st : State N) :
  backend (snd (detect host input st))
  = match model (this st) with
    | Some m =>
        match execute host m (batch host input (modelParams (this st))) with
        | inr outs =>
            match nth_error outs 0, nth_error outs 1 with
            | Some (sh0, scores), Some (sh1, boxes) =>
                let p := modelParams (this st) in
                match nonMaxSuppression host boxes (nth 1 sh1 0) (nth 3 sh1 0) scores
                        (maxNumBoxes p) (iouThreshold p) (scoreThreshold p) with
                | inl _ => "cpu"
                | inr _ => backend st
                end
            | _, _ => backend st
            end
        | inl _ => backend st
        end
    | None => backend st
    end.
Proof.
  destruct (detect_run host input st) as [l [_ R]].
  destruct (model (this st)) as [m|]; [|now rewrite R].
  destruct (execute host m _) as [e|outs]; [now rewrite R|].
  rewrite R. clear R.
  match goal with
  | |- context [detect_then host ?tb ?h ?w ?b ?r ?s] =>
      pose proof (detect_then_run host tb h w b r s) as R
  end.
  rewrite !nth_error_tensors in R.
  destruct (nth_error outs 0) as [[sh0 scores]|]; cbn [option_map] in R; [|now rewrite R].
  destruct (nth_error outs 1) as [[sh1 boxes]|]; cbn [option_map] in R; [|now rewrite R].
  cbn in R. cbn zeta.
  destruct (nonMaxSuppression _ _ _ _ _ _ _ _) as [e|selected];
    destruct R as [l' [-> _]]; reflexivity.
Qed.

(** The clock readings [detect] takes: two when it returns, one when it
    fails before the promise of [executeAsync] resolves. *)
Lemma detect_ticks_console (input : Frame N Pixel) (st : State N) :
  console (snd (detect host input st))
  = console st ++ [Logged (height input) (width input)]
  /\ ticks (snd (detect host input st))
     = match outcome host (this st) input with
       | Return _ => S (S (ticks st))
       | _ => S (ticks st)
       end.
Proof.
  destruct (detect_run host input st) as [l [_ R]]. unfold outcome.
  destruct (model (this st)) as [m|]; [|now rewrite R].
  destruct (execute host m _) as [e|outs]; [now rewrite R|].
  rewrite R. clear R. unfold postprocess.
  match goal with
  | |- context [detect_then host ?tb ?h ?w ?b ?r ?s] =>
      pose proof (detect_then_run host tb h w b r s) as R
  end.
  rewrite !nth_error_tensors in R.
  destruct (nth_error outs 0) as [[sh0 scores]|]; cbn [option_map] in R;
    [|rewrite R; split; reflexivity].
  destruct (nth_error outs 1) as [[sh1 boxes]|]; cbn [option_map] in R;
    [|rewrite R; split; reflexivity].
  cbn in R.
  destruct (nonMaxSuppression _ _ _ _ _ _ _ _) as [e|selected];
    destruct R as [l' [-> _]]; split; reflexivity.
Qed.

End MoreDetectFacts.

(** X1.  [detect] switches the backend to "cpu" for the suppression step and
    switches back afterwards: when it returns, the backend is the one it
    found.  When the suppression step throws, [detect] fails with that error
    and the backend stays "cpu". *)
Theorem detect_backend (N : Type) (number : Number N) (Pixel : Type)
    (host : Host N Pixel) (input : Frame N Pixel) (st : State N) :
  (forall preds, fst (detect host input st) = Return preds ->
     backend (snd (detect host input st)) = backend st)
  /\ (forall m outs sh0 scores sh1 boxes e,
        model (this st) = Some m ->
        execute host m (batch host input (modelParams (this st))) = inr outs ->
        nth_error outs 0 = Some (sh0, scores) ->
        nth_error outs 1 = Some (sh1, boxes) ->
        nonMaxSuppression host boxes (nth 1 sh1 0) (nth 3 sh1 0) scores
          (maxNumBoxes (modelParams (this st))) (iouThreshold (modelParams (this st)))
          (scoreThreshold (modelParams (this st))) = inl e ->
        fst (detect host input st) = Throw e
        /\ backend (snd (detect host input st)) = "cpu").
Proof.
  split.
  - intros preds Hret. rewrite detect_backend_cases.
    rewrite detect_outcome in Hret. unfold outcome, postprocess in Hret.
    destruct (model (this st)) as [m|]; [|reflexivity].
    destruct (execute host m _) as [e|outs]; [reflexivity|].
    destruct (nth_error outs 0) as [[sh0 scores]|]; [|reflexivity].
    destruct (nth_error outs 1) as [[sh1 boxes]|]; [|reflexivity].
    cbn zeta. destruct (nonMaxSuppression _ _ _ _ _ _ _ _); [discriminate | reflexivity].
  - intros m outs sh0 scores sh1 boxes e Hm He H0 H1 Hs. split.
    + rewrite detect_outcome. unfold outcome, postprocess.
      now rewrite Hm, He, H0, H1, Hs.
    + rewrite detect_backend_cases. rewrite Hm, He, H0, H1. cbn zeta. now rewrite Hs.
Qed.

(** X1 on two runs: one that returns, one whose suppression step throws. *)
Lemma detect_backend_witness :
  backend (snd (detect (Mock.host Mock.spotExecute Mock.ticking) Mock.handLeft
                  (Mock.loaded true)))
  = "tensorflow"
  /\ backend (snd (detect (Stub.host Stub.foundModel Mock.spotExecute Stub.failingSuppress)
                     Mock.handLeft (Mock.loaded false)))
     = "cpu".
Proof.
  split.
  - apply (proj1 (@detect_backend float _ bool (Mock.host Mock.spotExecute Mock.ticking)
                    Mock.handLeft (Mock.loaded true))
             [mkPrediction [3; 0; 1; 1]%float (Some 0%Z) (Some 1%float)]).
    vm_compute. reflexivity.
  - apply (proj2 (@detect_backend float _ bool
                    (Stub.host Stub.foundModel Mock.spotExecute Stub.failingSuppress)
                    Mock.handLeft (Mock.loaded false))
             (mkModel 1 false)
             [ ([1; 1; 1]%nat, [1%float]);
               ([1; 1; 1; 4]%nat, [0; 0; 1; 0.25]%float) ]
             [1; 1; 1]%nat [1%float] [1; 1; 1; 4]%nat [0; 0; 1; 0.25]%float
             Stub.suppressionError).
    + reflexivity.
    + vm_compute. reflexivity.
    + reflexivity.
    + reflexivity.
    + reflexivity.
Defined.

(** X2.  Once the engine has answered with at least two tensors, [detect]
    leaves no tensor behind, whether the suppression step succeeds or
    throws: the tensors held afterwards are those held before. *)
Theorem detect_releases_after_inference (N : Type) (number : Number N) (Pixel : Type)
    (host : Host N Pixel) (input : Frame N Pixel) (st : State N)
    (m : GraphModel) (outs : list (list nat * list N)) :
  wf st ->
  model (this st) = Some m ->
  execute host m (batch host input (modelParams (this st))) = inr outs ->
  2 <= length outs ->
  live (snd (detect host input st)) = live st.
Proof.
  intros Hwf Hm He Hlen. rewrite (detect_live host input Hwf).
  unfold leftover. rewrite Hm, He.
  destruct outs as [|o0 [|o1 rest]]; cbn in Hlen; try lia.
  cbn [nth_error]. apply app_nil_r.
Qed.

(** X2 on a run that returns and on one whose suppression step throws. *)
Lemma detect_releases_after_inference_witness :
  live (snd (detect (Mock.host Mock.spotExecute Mock.ticking) Mock.handLeft
               (Mock.loaded true)))
  = [0]
  /\ live (snd (detect (Stub.host Stub.foundModel Mock.spotExecute Stub.failingSuppress)
                  Mock.handLeft (Mock.loaded true)))
     = [0].
Proof.
  split.
  - apply (@detect_releases_after_inference float _ bool
             (Mock.host Mock.spotExecute Mock.ticking) Mock.handLeft (Mock.loaded true)
             (mkModel 1 false)
             [ ([1; 1; 1]%nat, [1%float]);
               ([1; 1; 1; 4]%nat, [0; 0.75; 1; 1]%float) ]).
    + repeat constructor.
    + reflexivity.
    + vm_compute. reflexivity.
    + cbn. lia.
  - apply (@detect_releases_after_inference float _ bool
             (Stub.host Stub.foundModel Mock.spotExecute Stub.failingSuppress)
             Mock.handLeft (Mock.loaded true)
             (mkModel 1 false)
             [ ([1; 1; 1]%nat, [1%float]);
               ([1; 1; 1; 4]%nat, [0; 0.75; 1; 1]%float) ]).
    + repeat constructor.
    + reflexivity.
    + vm_compute. reflexivity.
    + cbn. lia.
Defined.

(** X3.  Whatever its outcome, [detect] changes neither the parameters, nor
    the model handle, nor the model path of the instance, and it logs the
    frame's height and width once. *)
Theorem detect_keeps_instance (N : Type) (number : Number N) (Pixel : Type)
    (host : Host N Pixel) (input : Frame N Pixel) (st : State N) :
  let o := this (snd (detect host input st)) in
  modelParams o = modelParams (this st)
  /\ model o = model (this st)
  /\ modelPath o = modelPath (this st)
  /\ console (snd (detect host input st))
     = console st ++ [Logged (height input) (width input)].
Proof.
  intros o. subst o. rewrite detect_this.
  destruct (outcome host (this st) input); repeat split;
    apply (proj1 (detect_ticks_console host input st)).
Qed.

(** X4.  When the engine answers with fewer than two tensors, [detect] fails
    with the [TypeError] of reading [dataSync] of [undefined]; [fps] keeps
    its value, and the preprocessed tensor and the engine's outputs are all
    still held. *)
Theorem detect_missing_output (N : Type) (number : Number N) (Pixel : Type)
    (host : Host N Pixel) (input : Frame N Pixel) (st : State N)
    (m : GraphModel) (outs : list (list nat * list N)) :
  wf st ->
  model (this st) = Some m ->
  execute host m (batch host input (modelParams (this st))) = inr outs ->
  length outs < 2 ->
  fst (detect host input st) = Throw (typeError "dataSync")
  /\ fps (this (snd (detect host input st))) = fps (this st)
  /\ live (snd (detect host input st))
     = live st ++ batched_id st :: seq (S (batched_id st)) (length outs).
Proof.
  intros Hwf Hm He Hlen.
  assert (Hnth : nth_error outs 1 = None) by (apply nth_error_None; lia).
  assert (Ho : outcome host (this st) input = Throw (typeError "dataSync")).
  { unfold outcome, postprocess. rewrite Hm, He, Hnth.
    destruct (nth_error outs 0) as [[sh0 scores]|]; reflexivity. }
  split; [|split].
  - now rewrite detect_outcome.
  - now rewrite detect_this, Ho.
  - rewrite (detect_live host input Hwf). unfold leftover.
    rewrite Hm, He, Hnth. destruct (nth_error outs 0) as [[sh0 scores]|]; reflexivity.
Qed.

(** X4 with a model that has a single output. *)
Lemma detect_missing_output_witness :
  let host := Mock.host Stub.oneOutput Mock.ticking in
  fst (detect host Mock.handLeft (Mock.loaded true)) = Throw (typeError "dataSync")
  /\ fps (this (snd (detect host Mock.handLeft (Mock.loaded true)))) = Some 0%float
  /\ live (snd (detect host Mock.handLeft (Mock.loaded true))) = [0; 6; 7].
Proof.
  intros host.
  apply (@detect_missing_output float _ bool host Mock.handLeft (Mock.loaded true)
           (mkModel 1 false) [ ([1; 1; 1]%nat, [1%float]) ]).
  - repeat constructor.
  - reflexivity.
  - reflexivity.
  - cbn. lia.
Defined.

(** X5.  Mirroring twice is no mirroring: with [flipHorizontal = true], a
    call on the mirrored frame ends as a call with [flipHorizontal = false]
    on the frame itself does. *)
Theorem detect_flip_of_mirrored (N : Type) (number : Number N) (Pixel : Type)
    (host : Host N Pixel) (input : Frame N Pixel) (st : State N) :
  flipHorizontal (modelParams (this st)) = true ->
  mirrored (mirrored input) = input
  /\ fst (detect host (mirrored input) st)
     = fst (detect host input (set_flipHorizontal false st)).
Proof.
  intros Hflip.
  assert (Hrows : map (@rev Pixel) (map (@rev Pixel) (pixels input)) = pixels input).
  { rewrite map_map. rewrite <- (map_id (pixels input)) at 2.
    apply map_ext. intros row. apply rev_involutive. }
  split.
  - destruct input as [h w px]. unfold mirrored. cbn in *. now rewrite Hrows.
  - rewrite !detect_outcome. unfold outcome, batch. cbn. rewrite Hflip, Hrows.
    reflexivity.
Qed.

(** X5 on the frame with a hand in the leftmost column. *)
Lemma detect_flip_of_mirrored_witness :
  let host := Mock.host Mock.spotExecute Mock.ticking in
  fst (detect host (mirrored Mock.handLeft) (Mock.loaded true))
  = fst (detect host Mock.handLeft (set_flipHorizontal false (Mock.loaded true))).
Proof.
  intros host.
  apply (@detect_flip_of_mirrored float _ bool host Mock.handLeft (Mock.loaded true)
           eq_refl).
Defined.

Section LoadFacts.

Context {N : Type} `{Number N} {Pixel : Type}.
Variable host : Host N Pixel.

(** [load], path by path. *)
Lemma load_run (st : State N) :
  let o := this st in
  match loadGraphModel host ("file://" ++ modelPath o) with
  | inl e =>
      load host st
      = (Exit 1,
         mkState (mkObject (modelPath o) (modelParams o) (Some (ofZ 0)) (model o))
                 (live st) (nextId st) (backend st) (ticks st)
                 (console st ++ [LoggedError e]))
  | inr m =>
      let loaded := mkObject (modelPath o) (modelParams o) (Some (ofZ 0)) (Some m) in
      match execute host m (zeros host) with
      | inl e =>
          load host st
          = (Exit 1,
             mkState loaded (live st ++ [nextId st]) (S (nextId st)) (backend st)
                     (ticks st) (console st ++ [LoggedError e]))
      | inr outs =>
          exists l,
            load host st
            = (Return tt,
               mkState loaded l (length outs + S (nextId st)) (backend st)
                       (ticks st) (console st))
            /\ (wf st -> l = live st ++ [nextId st])
      end
  end.
Proof.
  destruct st as [o L n b t c]. cbn [this live nextId backend ticks console].
  unfold load, catch, exit, wf. cbn zeta. run_effects.
  destruct (loadGraphModel host _) as [e|m] eqn:El; [reflexivity|].
  run_effects.
  destruct (execute host m (zeros host)) as [e|outs] eqn:Ee; [reflexivity|].
  rewrite allocAll_run. cbn. rewrite disposeAll_run. cbn.
  eexists. split; [reflexivity|]. intros Hwf.
  rewrite tid_tensors.
  assert (Hl : Forall (fun x => x < S n) (L ++ [n])).
  { apply Forall_app. split; [|repeat constructor].
    eapply Forall_impl; [|exact Hwf]. cbn. lia. }
  apply (remove_seq (a := S n) (length outs) Hl).
Qed.


End LoadFacts.



(** X7.  [load] never throws: it returns, or it ends the process with exit
    code 1.  It does the latter when the model file does not load or the
    warm-up inference fails, after logging the error; a failed file load
    leaves the model handle as it was. *)
Theorem load_exits_on_failure (N : Type) (number : Number N) (Pixel : Type)
    (host : Host N Pixel) (st : State N) :
  (fst (load host st) = Return tt \/ fst (load host st) = Exit 1)
  /\ (forall e, loadGraphModel host ("file://" ++ modelPath (this st)) = inl e ->
        fst (load host st) = Exit 1
        /\ console (snd (load host st)) = console st ++ [LoggedError e]
        /\ model (this (snd (load host st))) = model (this st))
  /\ (forall m e, loadGraphModel host ("file://" ++ modelPath (this st)) = inr m ->
        execute host m (zeros host) = inl e ->
        fst (load host st) = Exit 1
        /\ console (snd (load host st)) = console st ++ [LoggedError e]).
Proof.
  pose proof (load_run host st) as R. cbn zeta in R. split; [|split].
  - destruct (loadGraphModel host _) as [e|m]; [rewrite R; now right|].
    destruct (execute host m (zeros host)) as [e|outs]; [rewrite R; now right|].
    destruct R as [l [-> _]]. now left.
  - intros e E. rewrite E in R. rewrite R. repeat split.
  - intros m e E E'. rewrite E, E' in R. rewrite R. repeat split.
Qed.

(** X7 with a model file that cannot be read. *)
Lemma load_exits_on_failure_witness :
  let host := Stub.host Stub.missingModel Mock.spotExecute Mock.keepAbove in
  fst (load host (Mock.fresh true)) = Exit 1
  /\ console (snd (load host (Mock.fresh true))) = [LoggedError Stub.loadError]
  /\ model (this (snd (load host (Mock.fresh true)))) = None.
Proof.
  intros host.
  apply (proj1 (proj2 (@load_exits_on_failure float _ bool host (Mock.fresh true)))
           Stub.loadError).
  reflexivity.
Defined.


Section ParameterFacts.

Variable N : Type.

Lemma Object_assign_all (target p : Modelparams N) :
  Object_assign target (allParams p) = p.
Proof. destruct p. reflexivity. Qed.

Lemma Object_assign_none (target : Modelparams N) :
  Object_assign target (noParams N) = target.
Proof. destruct target. reflexivity. Qed.

Lemma Object_assign_merge (target : Modelparams N) (p q : PartialParams N) :
  Object_assign (Object_assign target p) q = Object_assign target (mergeParams p q).
Proof.
  destruct p as [a1 a2 a3 a4 a5 a6 a7], q as [b1 b2 b3 b4 b5 b6 b7].
  unfold Object_assign, mergeParams. cbn.
  destruct b1, b2, b3, b4, b5, b6, b7; reflexivity.
Qed.

Lemma setModelParameters_run (p : PartialParams N) (st : State N) :
  setModelParameters p st
  = (Return tt,
     set_this (mkObject (modelPath (this st)) (Object_assign (modelParams (this st)) p)
                        (fps (this st)) (model (this st))) st).
Proof. reflexivity. Qed.

End ParameterFacts.

(** X9.  Parameter updates compose as the merge of their arguments, a key of
    the later one winning; an update with no key changes nothing; and
    passing back what [getModelParameters] returns changes nothing either. *)
Theorem setModelParameters_compose (N : Type) (p q : PartialParams N) (st : State N) :
  snd (setModelParameters q (snd (setModelParameters p st)))
  = snd (setModelParameters (mergeParams p q) st)
  /\ snd (setModelParameters (noParams N) st) = st
  /\ (forall current, fst (getModelParameters st) = Return current ->
        snd (setModelParameters (allParams current) st) = st).
Proof.
  rewrite !setModelParameters_run. cbn [fst snd].
  destruct st as [[path params f m] L n b t c]. cbn. split; [|split].
  - now rewrite Object_assign_merge.
  - now rewrite Object_assign_none.
  - intros current E. injection E as <-. now rewrite Object_assign_all.
Qed.

(** X9 on the state [load] leaves. *)
Lemma setModelParameters_compose_witness :
  snd (setModelParameters (allParams (Mock.params true)) (Mock.loaded true))
  = Mock.loaded true.
Proof.
  apply (proj2 (proj2 (@setModelParameters_compose float (noParams float)
                         (noParams float) (Mock.loaded true)))).
  reflexivity.
Defined.


(** X11.  The module's [load] builds its instance from [defaultParams] with
    the given keys overridden.  When the model file loads and the warm-up
    succeeds it returns that instance, loaded and with [fps] at 0, so that
    [getFPS] returns 0 before any [detect]; without keys the parameters are
    [defaultParams].  When the model file does not load, the process ends
    with exit code 1. *)
Theorem Index_load_returns_loaded (Pixel : Type) (host : Host float Pixel)
    (params : PartialParams float) (st : State float) :
  (forall m outs,
      loadGraphModel host ("file://" ++ modelFile host) = inr m ->
      execute host m (zeros host) = inr outs ->
      let loaded :=
        mkObject (modelFile host) (Object_assign Index.defaultParams params)
                 (Some 0%float) (Some m) in
      fst (Index.load host params st) = Return loaded
      /\ this (snd (Index.load host params st)) = loaded
      /\ fst (getFPS (snd (Index.load host params st))) = Return (Some 0%float))
  /\ Object_assign Index.defaultParams (noParams float) = Index.defaultParams
  /\ (forall e,
        loadGraphModel host ("file://" ++ modelFile host) = inl e ->
        fst (Index.load host params st) = Exit 1).
Proof.
  set (st0 := set_this (new_ObjectDetection host
                          (Object_assign Index.defaultParams params)) st).
  assert (E : Index.load host params st
              = match load host st0 with
                | (Return _, st') => (Return (this st'), st')
                | (Throw e, st') => (Throw e, st')
                | (Exit code, st') => (Exit code, st')
                end).
  { unfold Index.load, bind, modify, getThis, get, ret. cbn. fold st0.
    destruct (load host st0) as [[u|e|code] st']; reflexivity. }
  pose proof (load_run host st0) as R. cbn zeta in R.
  change (modelPath (this st0)) with (modelFile host) in R.
  split; [|split].
  - intros m outs Hl He loaded. rewrite Hl, He in R. destruct R as [l [R _]].
    rewrite E, R. cbn. repeat split.
  - reflexivity.
  - intros e Hl. rewrite Hl in R. rewrite E, R. reflexivity.
Qed.

(** X11 with and without a model file. *)
Lemma Index_load_returns_loaded_witness :
  fst (getFPS (snd (Index.load (Mock.host Mock.spotExecute Mock.ticking)
                      (noParams float) (Mock.fresh false))))
  = Return (Some 0%float)
  /\ fst (Index.load (Stub.host Stub.missingModel Mock.spotExecute Mock.keepAbove)
            (noParams float) (Mock.fresh false))
     = Exit 1.
Proof.
  split.
  - apply (proj1 (@Index_load_returns_loaded bool
                    (Mock.host Mock.spotExecute Mock.ticking) (noParams float)
                    (Mock.fresh false))
             (mkModel 1 false)
             [ ([1; 1; 1]%nat, [1%float]);
               ([1; 1; 1; 4]%nat, [0%float; nan; 1%float; infinity]) ]).
    + reflexivity.
    + vm_compute. reflexivity.
  - apply (proj2 (proj2 (@Index_load_returns_loaded bool
                    (Stub.host Stub.missingModel Mock.spotExecute Mock.keepAbove)
                    (noParams float) (Mock.fresh false)))
             Stub.loadError).
    reflexivity.
Defined.

Section MoreScanFacts.

Context {N : Type} `{Number N}.

(** The scan of one box ends on its initial state, or on a class of the box
    and the score read for it. *)
Lemma scanClasses_cases (scores : list N) (numClasses i : nat) :
  (scanClasses scores numClasses i = (MIN_VALUE, (-1)%Z))
  \/ (exists j, j < numClasses
                /\ scanClasses scores numClasses i
                   = (read scores (i * numClasses + j), Z.of_nat j)).
Proof.
  unfold scanClasses. generalize (i * numClasses) as base. intros base.
  induction numClasses as [|n IH].
  - left. reflexivity.
  - rewrite seq_S, fold_left_app. cbn [fold_left Nat.add].
    destruct (fold_left _ (seq 0 n) _) as [max index].
    destruct (ngt (read scores (base + n)) max).
    + right. exists n. split; [lia | reflexivity].
    + destruct IH as [IH|[j [Hj IH]]].
      * now left.
      * right. exists j. split; [lia | exact IH].
Qed.

(** A box none of whose scores is above [Number.MIN_VALUE]. *)
Lemma scanClasses_none_above (scores : list N) (numClasses i : nat) :
  (forall j, j < numClasses ->
     ngt (read scores (i * numClasses + j)) MIN_VALUE = false) ->
  scanClasses scores numClasses i = (MIN_VALUE, (-1)%Z).
Proof.
  unfold scanClasses. generalize (i * numClasses) as base. intros base.
  induction numClasses as [|n IH]; intros Hall.
  - reflexivity.
  - rewrite seq_S, fold_left_app. cbn [fold_left Nat.add].
    rewrite IH by (intros j Hj; apply Hall; lia).
    rewrite (Hall n) by lia. reflexivity.
Qed.

Lemma nth_error_map_seq {A : Type} (f : nat -> A) (n i : nat) :
  i < n -> nth_error (map f (seq 0 n)) i = Some (f i).
Proof.
  intros Hi. rewrite nth_error_map.
  rewrite (nth_error_nth' _ 0 (n := i)) by (rewrite length_seq; exact Hi).
  rewrite seq_nth by exact Hi. reflexivity.
Qed.

Lemma calculateMaxScores_nth (scores : list N) (numBoxes numClasses i : nat) :
  i < numBoxes ->
  nth_error (fst (calculateMaxScores scores numBoxes numClasses)) i
  = Some (fst (scanClasses scores numClasses i))
  /\ nth_error (snd (calculateMaxScores scores numBoxes numClasses)) i
     = Some (snd (scanClasses scores numClasses i)).
Proof.
  intros Hi. rewrite calculateMaxScores_scan. cbn [fst snd].
  split.
  - exact (nth_error_map_seq (fun i => fst (scanClasses scores numClasses i)) Hi).
  - exact (nth_error_map_seq (fun i => snd (scanClasses scores numClasses i)) Hi).
Qed.

Lemma calculateMaxScores_length (scores : list N) (numBoxes numClasses : nat) :
  length (fst (calculateMaxScores scores numBoxes numClasses)) = numBoxes
  /\ length (snd (calculateMaxScores scores numBoxes numClasses)) = numBoxes.
Proof.
  rewrite calculateMaxScores_scan. cbn [fst snd].
  now rewrite !length_map, length_seq.
Qed.

End MoreScanFacts.

(** X12.  [calculateMaxScores] returns one maximum and one class per box.
    The class of box [i] is -1 or a class index below [numClasses]; with
    class -1 the maximum is [Number.MIN_VALUE], otherwise it is the score
    read at [i * numClasses + class]. *)
Theorem calculateMaxScores_classes_in_range (N : Type) (number : Number N)
    (scores : list N) (numBoxes numClasses : nat) :
  let maxes := fst (calculateMaxScores scores numBoxes numClasses) in
  let classes := snd (calculateMaxScores scores numBoxes numClasses) in
  length maxes = numBoxes
  /\ length classes = numBoxes
  /\ forall i, i < numBoxes ->
       exists max index,
         nth_error maxes i = Some max
         /\ nth_error classes i = Some index
         /\ ((index = (-1)%Z /\ max = MIN_VALUE)
             \/ (exists j, index = Z.of_nat j /\ j < numClasses
                           /\ max = read scores (i * numClasses + j))).
Proof.
  intros maxes classes. subst maxes classes.
  destruct (calculateMaxScores_length scores numBoxes numClasses) as [L1 L2].
  split; [exact L1|]. split; [exact L2|].
  intros i Hi.
  destruct (calculateMaxScores_nth scores numClasses Hi) as [E1 E2].
  exists (fst (scanClasses scores numClasses i)), (snd (scanClasses scores numClasses i)).
  split; [exact E1|]. split; [exact E2|].
  destruct (scanClasses_cases scores numClasses i) as [->|[j [Hj ->]]].
  - left. split; reflexivity.
  - right. exists j. repeat split. exact Hj.
Qed.

(** X13.  In exact arithmetic, for a buffer of [numBoxes * numClasses]
    finite scores: when the largest score of box [i] is above
    [Number.MIN_VALUE], [calculateMaxScores] returns that score for the box,
    and as its class the first class that attains it. *)
Theorem calculateMaxScores_first_maximum (scores : list Q)
    (numBoxes numClasses i k : nat) :
  length scores = numBoxes * numClasses ->
  i < numBoxes ->
  k < numClasses ->
  (Exact.leastPositive < nth (i * numClasses + k) scores 0)%Q ->
  (forall j, j < numClasses ->
     (nth (i * numClasses + j) scores 0 <= nth (i * numClasses + k) scores 0)%Q) ->
  (forall j, j < k ->
     (nth (i * numClasses + j) scores 0 < nth (i * numClasses + k) scores 0)%Q) ->
  nth_error (fst (calculateMaxScores (map XFin scores) numBoxes numClasses)) i
  = Some (XFin (nth (i * numClasses + k) scores 0%Q))
  /\ nth_error (snd (calculateMaxScores (map XFin scores) numBoxes numClasses)) i
     = Some (Z.of_nat k).
Proof.
  intros Hlen Hi Hk Hpos Hmax Hfirst.
  destruct (calculateMaxScores_nth (map XFin scores) numClasses Hi) as [-> ->].
  pose proof (@scanClasses_exact (map XFin scores) numClasses i
                (fun j => nth (i * numClasses + j) scores 0%Q)) as S.
  assert (Hread : forall j, j < numClasses ->
            read (map XFin scores) (i * numClasses + j)
            = XFin (nth (i * numClasses + j) scores 0%Q)).
  { intros j Hj. unfold read.
    rewrite (nth_indep _ NaN (XFin 0%Q)) by (rewrite length_map; nia).
    apply (map_nth XFin). }
  specialize (S Hread).
  destruct (scanClasses (map XFin scores) numClasses i) as [max index].
  cbn [fst snd].
  destruct S as [[_ [_ Hall]]|[k' [-> [Hk' [-> [_ [Hall' Hfirst']]]]]]].
  - specialize (Hall k Hk). cbn beta in Hall. exfalso. lra.
  - cbn beta in Hall', Hfirst'.
    assert (k' = k).
    { destruct (Nat.lt_trichotomy k' k) as [Hlt|[Heq|Hgt]]; [|exact Heq|].
      - specialize (Hfirst k' Hlt). specialize (Hall' k Hk). lra.
      - specialize (Hfirst' k Hgt). specialize (Hmax k' Hk'). lra. }
    subst k'. split; reflexivity.
Qed.

(** X13 on two boxes and three classes: in the second box the classes 0 and
    1 tie, and class 0 is returned. *)
Lemma calculateMaxScores_first_maximum_witness :
  let scores := [1 # 10; 9 # 10; 2 # 10; 5 # 10; 5 # 10; 3 # 10]%Q in
  nth_error (fst (calculateMaxScores (map XFin scores) 2 3)) 1 = Some (XFin (5 # 10))
  /\ nth_error (snd (calculateMaxScores (map XFin scores) 2 3)) 1 = Some 0%Z.
Proof.
  intros scores.
  apply (@calculateMaxScores_first_maximum scores 2 3 1 0).
  - reflexivity.
  - lia.
  - lia.
  - reflexivity.
  - intros j Hj. destruct j as [|[|[|j]]]; [discriminate | discriminate | discriminate | lia].
  - intros j Hj. lia.
Defined.

Section BinaryComparisons.

(** On binary64 numbers, a number that is zero or negative is not above
    [Number.MIN_VALUE], and NaN is above nothing. *)
Lemma not_above_MIN_VALUE (x : float) :
  PrimFloat.leb x 0%float = true -> ngt x MIN_VALUE = false.
Proof.
  intros Hle. change (PrimFloat.ltb Float64.MIN_VALUE x = false).
  rewrite ltb_spec. rewrite leb_spec in Hle.
  change (Prim2SF Float64.MIN_VALUE) with (S754_finite false 1 (-1074)).
  change (Prim2SF 0%float) with (S754_zero false) in Hle.
  destruct (Prim2SF x) as [s|s| |s m e]; try destruct s; try reflexivity;
    try discriminate Hle.
Qed.

Lemma nan_not_above (y : float) : ngt nan y = false.
Proof.
  change (PrimFloat.ltb y nan = false). rewrite ltb_spec.
  change (Prim2SF nan) with S754_nan.
  destruct (Prim2SF y) as [s|s| |s m e]; reflexivity.
Qed.

End BinaryComparisons.

(** X14.  A box none of whose scores compares above [Number.MIN_VALUE] gets
    the class -1 and the score [Number.MIN_VALUE], whatever those scores
    are.  On binary64 numbers a score does not compare above
    [Number.MIN_VALUE] when it is zero or negative, when it is NaN, and when
    it is read beyond the end of the buffer. *)
Theorem calculateMaxScores_none_above :
  (forall (N : Type) (number : Number N) (scores : list N)
          (numBoxes numClasses i : nat),
     i < numBoxes ->
     (forall j, j < numClasses ->
        ngt (read scores (i * numClasses + j)) MIN_VALUE = false) ->
     nth_error (fst (calculateMaxScores scores numBoxes numClasses)) i = Some MIN_VALUE
     /\ nth_error (snd (calculateMaxScores scores numBoxes numClasses)) i
        = Some (-1)%Z)
  /\ (forall (scores : list float) (k : nat),
        PrimFloat.leb (read scores k) 0%float = true
        \/ read scores k = nan
        \/ length scores <= k ->
        ngt (read scores k) MIN_VALUE = false).
Proof.
  split.
  - intros N number scores numBoxes numClasses i Hi Hall.
    destruct (calculateMaxScores_nth scores numClasses Hi) as [-> ->].
    now rewrite (@scanClasses_none_above N _ scores numClasses i Hall).
  - intros scores k [Hle|[Hnan|Hlen]].
    + now apply not_above_MIN_VALUE.
    + rewrite Hnan. apply nan_not_above.
    + unfold read. rewrite nth_overflow by exact Hlen. apply nan_not_above.
Qed.

(** X14 with a buffer that holds the scores of one box only: the scores of
    the second box are read beyond its end. *)
Lemma calculateMaxScores_none_above_witness :
  nth_error (fst (calculateMaxScores [0.9; 0.2]%float 2 2)) 1 = Some Float64.MIN_VALUE
  /\ nth_error (snd (calculateMaxScores [0.9; 0.2]%float 2 2)) 1 = Some (-1)%Z.
Proof.
  assert (Hi : 1 < 2) by lia.
  assert (Hall : forall j, j < 2 ->
            ngt (read [0.9; 0.2]%float (1 * 2 + j)) MIN_VALUE = false).
  { intros j Hj.
    apply (proj2 calculateMaxScores_none_above [0.9; 0.2]%float (1 * 2 + j)).
    right. right. cbn. lia. }
  exact (proj1 calculateMaxScores_none_above float _ [0.9; 0.2]%float 2 2 1 Hi Hall).
Defined.

Section SingleClass.

Context {N : Type} `{Number N}.

(** The scan of a box of a single class. *)
Lemma scanClasses_single (scores : list N) (i : nat) :
  scanClasses scores 1 i
  = if ngt (read scores i) MIN_VALUE then (read scores i, 0%Z) else (MIN_VALUE, (-1)%Z).
Proof.
  unfold scanClasses. cbn [seq fold_left].
  replace (i * 1 + 0) with i by lia. reflexivity.
Qed.

End SingleClass.

(** X15.  When [detect] returns, it returns one prediction per index the
    suppression step selected, in the order of selection.  For a selected
    index [idx] below the number of boxes, the prediction's score is entry
    [idx] of the score buffer and its class is -1 or a class index below the
    number of classes; for a model with a single class, the class is 0 when
    the score is above [Number.MIN_VALUE] and -1 otherwise. *)
Theorem detect_prediction_classes (N : Type) (number : Number N) (Pixel : Type)
    (host : Host N Pixel) (input : Frame N Pixel) (st : State N) (m : GraphModel)
    (outs : list (list nat * list N)) (sh0 sh1 : list nat) (scores boxes : list N)
    (selected : list nat) :
  model (this st) = Some m ->
  execute host m (batch host input (modelParams (this st))) = inr outs ->
  nth_error outs 0 = Some (sh0, scores) ->
  nth_error outs 1 = Some (sh1, boxes) ->
  nonMaxSuppression host boxes (nth 1 sh1 0) (nth 3 sh1 0) scores
    (maxNumBoxes (modelParams (this st))) (iouThreshold (modelParams (this st)))
    (scoreThreshold (modelParams (this st)))
  = inr selected ->
  let numBoxes := nth 1 sh0 0 in
  let numClasses := nth 2 sh0 0 in
  exists predictions,
    fst (detect host input st) = Return predictions
    /\ length predictions = length selected
    /\ forall k idx,
         nth_error selected k = Some idx -> idx < numBoxes ->
         exists bbox c,
           nth_error predictions k
           = Some (mkPrediction bbox (Some c) (nth_error scores idx))
           /\ (-1 <= c < Z.of_nat numClasses)%Z
           /\ (numClasses = 1 ->
               c = if ngt (read scores idx) MIN_VALUE then 0%Z else (-1)%Z).
Proof.
  intros Hm He H0 H1 Hs numBoxes numClasses.
  rewrite detect_outcome. unfold outcome, postprocess. rewrite Hm, He, H0, H1, Hs.
  eexists. split; [reflexivity|].
  rewrite buildDetectedObjects_map. split; [apply length_map|].
  intros k idx Hk Hidx. rewrite nth_error_map, Hk. cbn [option_map].
  fold numBoxes numClasses.
  destruct (calculateMaxScores_nth scores numClasses Hidx) as [_ Ec].
  eexists. exists (snd (scanClasses scores numClasses idx)).
  rewrite Ec. split; [reflexivity|]. split.
  - destruct (scanClasses_cases scores numClasses idx) as [->|[j [Hj ->]]];
      cbn [snd]; lia.
  - intros ->. rewrite scanClasses_single.
    destruct (ngt (read scores idx) MIN_VALUE); reflexivity.
Qed.

(** X15 on a frame for which the model reports one box of score 1. *)
Lemma detect_prediction_classes_witness :
  let host := Mock.host Mock.fixedExecute Mock.ticking in
  exists predictions,
    fst (detect host Mock.frame100x200 (Mock.loaded true)) = Return predictions
    /\ length predictions = 1
    /\ forall k idx,
         nth_error [0] k = Some idx -> idx < 1 ->
         exists bbox c,
           nth_error predictions k
           = Some (mkPrediction bbox (Some c) (nth_error [1%float] idx))
           /\ (-1 <= c < 1)%Z
           /\ (1 = 1 -> c = if ngt (read [1%float] idx) MIN_VALUE then 0%Z else (-1)%Z).
Proof.
  intros host.
  assert (Hm : model (this (Mock.loaded true)) = Some (mkModel 1 false)) by reflexivity.
  assert (He : execute host (mkModel 1 false)
                 (batch host Mock.frame100x200 (modelParams (this (Mock.loaded true))))
               = inr [ ([1; 1; 1], [1%float]);
                       ([1; 1; 1; 4], [0.1; 0.2; 0.6; 0.8]%float) ])
    by reflexivity.
  assert (Hs : nonMaxSuppression host [0.1; 0.2; 0.6; 0.8]%float
                 (nth 1 [1; 1; 1; 4] 0) (nth 3 [1; 1; 1; 4] 0) [1%float]
                 (maxNumBoxes (modelParams (this (Mock.loaded true))))
                 (iouThreshold (modelParams (this (Mock.loaded true))))
                 (scoreThreshold (modelParams (this (Mock.loaded true))))
               = inr [0])
    by (vm_compute; reflexivity).
  exact (@detect_prediction_classes float _ bool host Mock.frame100x200
           (Mock.loaded true) (mkModel 1 false) _ [1; 1; 1] [1; 1; 1; 4]
           [1%float] [0.1; 0.2; 0.6; 0.8]%float [0] Hm He eq_refl eq_refl Hs).
Defined.

Section MoreExactFacts.

Local Open Scope Q_scope.



End MoreExactFacts.

(** X16.  With an output stride of 0, [getValidResolution] returns NaN,
    whatever the dimension and the scale factor, in exact arithmetic and on
    binary64 numbers: the remainder by zero is NaN. *)
Theorem getValidResolution_zero_stride :
  (forall s d : xnum, getValidResolution s d (ofZ 0) = NaN)
  /\ (forall s d : float, getValidResolution s d (ofZ 0) = NaN).
Proof.
  split.
  - intros s d. unfold getValidResolution.
    destruct (d * s - ofZ 1)%js as [| neg | q]; reflexivity.
  - intros s d. unfold getValidResolution.
    set (e := (d * s - ofZ 1)%js).
    assert (Er : (e mod ofZ 0)%js = nan).
    { change (Float64.rem e zero = nan). unfold Float64.rem.
      change (Prim2SF zero) with (S754_zero false).
      destruct (Prim2SF e); reflexivity. }
    rewrite Er.
    assert (Es : (e - nan)%js = nan).
    { change (PrimFloat.sub e nan = nan).
      rewrite <- (SF2Prim_Prim2SF (PrimFloat.sub e nan)), sub_spec.
      change (Prim2SF nan) with S754_nan.
      destruct (Prim2SF e); reflexivity. }
    rewrite Es. reflexivity.
Qed.





Section StoreFacts.

Variable A : Type.

Lemma length_update (a : list A) (k : nat) (f : A -> A) :
  length (update a k f) = length a.
Proof.
  revert k. induction a as [|x a IH]; intros [|k]; cbn; try reflexivity.
  now rewrite IH.
Qed.

Lemma nth_error_update_same (a : list A) (k : nat) (f : A -> A) :
  nth_error (update a k f) k = option_map f (nth_error a k).
Proof.
  revert k. induction a as [|x a IH]; intros [|k]; cbn; try reflexivity.
  apply IH.
Qed.

Lemma nth_error_update_other (a : list A) (k j : nat) (f : A -> A) :
  j <> k -> nth_error (update a k f) j = nth_error a j.
Proof.
  revert k j. induction a as [|x a IH]; intros [|k] [|j] Hne; cbn;
    try reflexivity; try congruence.
  apply IH. congruence.
Qed.

Lemma update_idempotent (a : list A) (k : nat) (f : A -> A) :
  (forall x, f (f x) = f x) -> update (update a k f) k f = update a k f.
Proof.
  intros Hf. revert k. induction a as [|x a IH]; intros [|k]; cbn;
    try reflexivity.
  - now rewrite Hf.
  - now rewrite IH.
Qed.

End StoreFacts.

Lemma stopTracks_idempotent (tracks : list Track) :
  stopTracks (stopTracks tracks) = stopTracks tracks.
Proof. unfold stopTracks. rewrite map_map. reflexivity. Qed.

Lemma stopTracks_ended (tracks : list Track) :
  Forall (fun track => ended track = true) (stopTracks tracks)
  /\ map kind (stopTracks tracks) = map kind tracks.
Proof.
  unfold stopTracks. split.
  - apply Forall_forall. intros t Hin. apply in_map_iff in Hin.
    destruct Hin as [t0 [<- _]]. reflexivity.
  - rewrite map_map. reflexivity.
Qed.

(** X19.  [stopVideo] never resolves to [true]: it resolves to [undefined]
    when [window.localStream] is set and to [false] when it is not.  Every
    track of the stream [window.localStream] refers to is ended afterwards;
    the other streams are as they were, [window.localStream] still refers
    to the stopped stream, and a second [stopVideo] changes nothing. *)
Theorem stopVideo_never_true (browser : Browser) :
  let browser' := snd (stopVideo browser) in
  fst (stopVideo browser) <> Some true
  /\ (fst (stopVideo browser) = None <-> localStream browser <> None)
  /\ (fst (stopVideo browser) = Some false <-> localStream browser = None)
  /\ localStream browser' = localStream browser
  /\ (forall stream tracks,
        localStream browser = Some stream ->
        nth_error (streams browser) stream = Some tracks ->
        exists tracks',
          nth_error (streams browser') stream = Some tracks'
          /\ Forall (fun track => ended track = true) tracks'
          /\ map kind tracks' = map kind tracks)
  /\ (forall other,
        localStream browser <> Some other ->
        nth_error (streams browser') other = nth_error (streams browser) other)
  /\ stopVideo browser' = (fst (stopVideo browser), browser').
Proof.
  intros browser'. subst browser'. unfold stopVideo.
  destruct browser as [S [k|]]; cbn [localStream streams fst snd].
  - split; [discriminate|]. split; [split; [discriminate | reflexivity]|].
    split; [split; discriminate|]. split; [reflexivity|]. split; [|split].
    + intros stream tracks E Hn. injection E as <-.
      exists (stopTracks tracks). rewrite nth_error_update_same, Hn.
      split; [reflexivity|]. apply stopTracks_ended.
    + intros other Hne. apply nth_error_update_other. congruence.
    + rewrite update_idempotent by apply stopTracks_idempotent. reflexivity.
  - split; [discriminate|]. split; [split; [discriminate | congruence]|].
    split; [split; reflexivity|]. split; [reflexivity|]. split; [|split].
    + intros stream tracks E. discriminate E.
    + reflexivity.
    + reflexivity.
Qed.

(** X19 on a browser with a stream of one running track. *)
Lemma stopVideo_never_true_witness :
  exists tracks',
    nth_error (streams (snd (stopVideo (mkBrowser [Stub.camera] (Some 0))))) 0
    = Some tracks'
    /\ Forall (fun track => ended track = true) tracks'
    /\ map kind tracks' = map kind Stub.camera.
Proof.
  apply (proj1 (proj2 (proj2 (proj2 (proj2
           (stopVideo_never_true (mkBrowser [Stub.camera] (Some 0)))))))
           0 Stub.camera).
  - reflexivity.
  - reflexivity.
Defined.

(** X20.  [stopVideo] stops the stream of the last successful [startVideo]
    only.  After a [startVideo] that obtained a stream, [video.srcObject]
    and [window.localStream] refer to that stream and [stopVideo] ends its
    tracks; a stream [window.localStream] referred to before that
    [startVideo] is left as it was. *)
Theorem startVideo_stopVideo (N : Type) (number : Number N)
    (tracks : list Track) (metadata : bool) (video : @Video N)
    (browser : Browser) :
  let '(_, video', browser') := startVideo (inr tracks) metadata video browser in
  let stopped := snd (stopVideo browser') in
  (exists stream,
     srcObject video' = Some stream
     /\ localStream browser' = Some stream
     /\ nth_error (streams browser') stream = Some tracks
     /\ nth_error (streams stopped) stream = Some (stopTracks tracks))
  /\ (forall earlier before,
        localStream browser = Some earlier ->
        nth_error (streams browser) earlier = Some before ->
        nth_error (streams stopped) earlier = Some before).
Proof.
  unfold startVideo.
  set (width := orElse (video_width video) (ofZ 640)).
  set (height := orElse (video_height video) _).
  set (b' := mkBrowser (streams browser ++ [tracks]) (Some (length (streams browser)))).
  assert (Hnew : nth_error (streams browser ++ [tracks]) (length (streams browser))
                 = Some tracks).
  { rewrite nth_error_app2 by lia. now rewrite Nat.sub_diag. }
  assert (R : forall v : @Video N,
    (exists stream,
       Some (length (streams browser)) = Some stream
       /\ localStream b' = Some stream
       /\ nth_error (streams b') stream = Some tracks
       /\ nth_error (streams (snd (stopVideo b'))) stream = Some (stopTracks tracks))
    /\ (forall earlier before,
          localStream browser = Some earlier ->
          nth_error (streams browser) earlier = Some before ->
          nth_error (streams (snd (stopVideo b'))) earlier = Some before)).
  { intros _. split.
    - exists (length (streams browser)). split; [reflexivity|]. split; [reflexivity|].
      split; [exact Hnew|]. cbn. rewrite nth_error_update_same, Hnew. reflexivity.
    - intros earlier before _ Hn. cbn.
      assert (Hlt : earlier < length (streams browser))
        by (apply nth_error_Some; congruence).
      rewrite nth_error_update_other by lia.
      rewrite nth_error_app1 by exact Hlt. exact Hn. }
  destruct metadata; apply (R video).
Qed.

(** X21.  On binary64 numbers, [startVideo] gives the video its dimensions
    before it asks for the camera, so however the request ends: a width or
    height that is set (not 0, not NaN) is kept; a video without either gets
    640 by 480; and the width is never 0 or NaN afterwards.  When the camera
    is refused the promise is resolved to [false], not rejected, and neither
    [window.localStream] nor [video.srcObject] changes; it is resolved to
    [false] in that case only. *)
Theorem startVideo_dimensions (media : JsError + list Track) (metadata : bool)
    (video : @Video float) (browser : Browser) :
  let '(result, video', browser') := startVideo media metadata video browser in
  truthy (video_width video') = true
  /\ (truthy (video_width video) = true -> video_width video' = video_width video)
  /\ (truthy (video_height video) = true -> video_height video' = video_height video)
  /\ (truthy (video_width video) = false -> truthy (video_height video) = false ->
      video_width video' = 640%float /\ video_height video' = 480%float)
  /\ (result = Resolved false <-> exists err, media = inl err)
  /\ (forall err, media = inl err ->
        browser' = browser /\ srcObject video' = srcObject video).
Proof.
  unfold startVideo.
  set (width := orElse (video_width video) (ofZ 640)).
  set (height := orElse (video_height video) (nmul width (ndiv (ofZ 3) (ofZ 4)))).
  assert (Hw : truthy width = true).
  { unfold width, orElse. destruct (truthy (video_width video)) eqn:E;
      [exact E | reflexivity]. }
  assert (Hkw : truthy (video_width video) = true -> width = video_width video).
  { intros E. unfold width, orElse. now rewrite E. }
  assert (Hkh : truthy (video_height video) = true -> height = video_height video).
  { intros E. unfold height, orElse. now rewrite E. }
  assert (Hd : truthy (video_width video) = false ->
               truthy (video_height video) = false ->
               width = 640%float /\ height = 480%float).
  { intros E1 E2. unfold height, width, orElse. rewrite E1, E2. split; reflexivity. }
  destruct media as [err|tracks]; [|destruct metadata]; cbn [video_width video_height srcObject];
    (split; [exact Hw|]); (split; [exact Hkw|]); (split; [exact Hkh|]);
    (split; [exact Hd|]); split.
  - split; [intros _; now exists err | reflexivity].
  - intros err' _. split; reflexivity.
  - split; [discriminate | intros [err E]; discriminate E].
  - intros err E. discriminate E.
  - split; [discriminate | intros [err E]; discriminate E].
  - intros err E. discriminate E.
Qed.
